(** * arxiv-paper-downloader: the front-end controller [ArxivDownloader]

    A shallow embedding of [frontend/script.js].  The class keeps its state in
    its own fields and in the page (class lists, text contents, the table body,
    the highlight strip); the embedding threads that state explicitly through
    every method.  The two [async] methods are cut at their [await]s: the part
    that runs inside the triggering event, and the continuation that runs when
    the request has settled.

    Strings are sequences of UTF-16 code units in the source.  Here a [string]
    is read as a sequence of code units below 256; the platform functions are
    given for that range. *)

From Stdlib Require Import String Ascii List ZArith NArith Bool Lia.
From Stdlib Require Import DecimalString DecimalPos DecimalZ.
Import ListNotations.

Local Open Scope string_scope.
Local Open Scope Z_scope.

(** ** Platform functions the script calls *)

Module JS.

(** [String.prototype.length], [substring(0, n)], [Array.prototype.slice(0, n)]
    and [join]. *)
Definition length (s : string) : Z := Z.of_nat (String.length s).
Definition substring0 (n : nat) (s : string) : string := String.substring 0 n s.
Definition slice0 {A} (n : nat) (l : list A) : list A := firstn n l.
Definition join (sep : string) (l : list string) : string := String.concat sep l.

(** A string in a condition is false exactly when it is empty. *)
Definition truthy (s : string) : bool :=
  match s with EmptyString => false | String _ _ => true end.

(** [a || b] where [a] is a property that may be absent. *)
Definition or_else (a : option string) (b : string) : string :=
  match a with
  | Some s => if truthy s then s else b
  | None => b
  end.

(** Template interpolation of an integer: its decimal digits.  A Number
    prints these digits for a safe integer (magnitude up to [2^53]), a sign
    and digits, not always these, up to [10^21], and exponent notation from
    there on. *)
Definition of_int (z : Z) : string := NilZero.string_of_int (Z.to_int z).

(** *** [String.prototype.trim] *)

(** White space and line terminators among the code units below 256: TAB, LF,
    VT, FF, CR, SP and NBSP. *)
Definition is_white_space (c : ascii) : bool :=
  let n := N_of_ascii c in
  ((9 <=? n) && (n <=? 13) || (n =? 32) || (n =? 160))%N.

Fixpoint trimStart (s : string) : string :=
  match s with
  | EmptyString => EmptyString
  | String c r => if is_white_space c then trimStart r else s
  end.

Fixpoint trimEnd (s : string) : string :=
  match s with
  | EmptyString => EmptyString
  | String c r =>
      match trimEnd r with
      | EmptyString => if is_white_space c then EmptyString else String c EmptyString
      | r' => String c r'
      end
  end.

Definition trim (s : string) : string := trimEnd (trimStart s).

Definition all_white_space (s : string) : bool :=
  forallb is_white_space (list_ascii_of_string s).

(** *** [encodeURIComponent] *)

Definition is_alnum (c : ascii) : bool :=
  let n := N_of_ascii c in
  ((48 <=? n) && (n <=? 57) || (65 <=? n) && (n <=? 90) || (97 <=? n) && (n <=? 122))%N.

(** The characters [encodeURIComponent] leaves alone besides letters and
    digits: [- _ . ! ~ * ' ( )]. *)
Definition is_uri_mark (c : ascii) : bool :=
  existsb (Ascii.eqb c) (list_ascii_of_string "-_.!~*'()").

Definition is_uri_unreserved (c : ascii) : bool := is_alnum c || is_uri_mark c.

Definition hex_digit (n : N) : ascii :=
  match String.get (N.to_nat n) "0123456789ABCDEF" with
  | Some c => c
  | None => "0"%char
  end.

Definition percent (n : N) : string :=
  String "%" (String (hex_digit (n / 16)) (String (hex_digit (n mod 16)) EmptyString)).

(** One code unit: kept, or the percent-escaped octets of its UTF-8 form (one
    octet below 128, two from 128 to 255). *)
Definition encode_unit (c : ascii) : string :=
  let n := N_of_ascii c in
  if is_uri_unreserved c then String c EmptyString
  else if (n <? 128)%N then percent n
  else percent (192 + n / 64) ++ percent (128 + n mod 64).

Fixpoint encodeURIComponent (s : string) : string :=
  match s with
  | EmptyString => EmptyString
  | String c r => encode_unit c ++ encodeURIComponent r
  end.

(** *** Numbers and [Number.prototype.toFixed] *)

(** A Number is NaN, an infinity, or a finite value; [Finite m e] is
    [m * 2^e], which covers every finite double. *)
Inductive Number : Type :=
| NaN
| Infinity
| NegInfinity
| Finite (m e : Z).

Definition is_digit (c : ascii) : bool :=
  let n := N_of_ascii c in ((48 <=? n) && (n <=? 57))%N.

Definition all_digits (s : string) : bool :=
  forallb is_digit (list_ascii_of_string s).

(** Decimal digits of a non-negative integer, ["0"] for zero. *)
Definition digits (n : Z) : string := NilZero.string_of_uint (N.to_uint (Z.to_N n)).

Fixpoint zeros (n : nat) : string :=
  match n with O => EmptyString | S k => String "0" (zeros k) end.

(** [a * 2^e >= 10^21], for [a >= 0]. *)
Definition at_least_1e21 (a e : Z) : bool :=
  if 0 <=? e then 10 ^ 21 <=? a * 2 ^ e else 10 ^ 21 * 2 ^ (- e) <=? a.

(** The integer [n] for which [n / 10^f - a * 2^e] is closest to zero, the
    larger one of two. *)
Definition round_scaled (f : nat) (a e : Z) : Z :=
  let p := 10 ^ Z.of_nat f in
  if 0 <=? e then a * 2 ^ e * p
  else (2 * a * p + 2 ^ (- e)) / 2 ^ (- e + 1).

(** The digits of [n] with a point before the last [f] of them, after
    padding with zeros to [f + 1] digits. *)
Definition place_point (f : nat) (n : Z) : string :=
  let m := digits n in
  let m := if (String.length m <=? f)%nat
           then zeros (f + 1 - String.length m) ++ m else m in
  let k := String.length m in
  if (f =? 0)%nat then m
  else String.substring 0 (k - f) m ++ "." ++ String.substring (k - f) f m.

(** Number::toString for a finite value of at least [10^21]: the shortest
    digit string [s] (of [k] digits) with [s * 10^(n-k)] rounding to the
    value, in exponent notation.  The value is first brought to a 53-bit
    significand; a decimal rounds to it when it lies within half the gap to
    either neighbour, the ends included when the significand is even. *)
Section ToStringLarge.
Variables a e : Z.

Let L := Z.log2 a + 1.
Let M := if L <=? 53 then a * 2 ^ (53 - L) else a / 2 ^ (L - 53).
Let E := if L <=? 53 then e - (53 - L) else e + (L - 53).
Let x := M * 2 ^ E.
Let above := 2 ^ E.
Let below := if M =? 2 ^ 52 then 2 ^ (E - 1) else 2 ^ E.

Definition rounds_to (v : Z) : bool :=
  if Z.even M
  then (2 * x - below <=? 2 * v) && (2 * v <=? 2 * x + above)
  else (2 * x - below <? 2 * v) && (2 * v <? 2 * x + above).

Definition candidates (k : Z) : list (Z * Z) :=
  let D := Z.of_nat (String.length (digits x)) in
  flat_map (fun n =>
    let p := 10 ^ (n - k) in
    filter (fun ns => let s := snd ns in
              (10 ^ (k - 1) <=? s) && (s <? 10 ^ k) && rounds_to (s * p))
           [(n, x / p); (n, x / p + 1)])
    [D; D + 1].

Definition closer (k : Z) (c1 c2 : Z * Z) : Z * Z :=
  let d c := Z.abs (snd c * 10 ^ (fst c - k) - x) in
  if d c1 <? d c2 then c1
  else if d c2 <? d c1 then c2
  else if Z.even (snd c1) then c1 else c2.

Fixpoint shortest (fuel : nat) (k : Z) : Z * Z :=
  match candidates k, fuel with
  | c :: cs, _ => fold_left (closer k) cs c
  | [], S fuel' => shortest fuel' (k + 1)
  | [], O => (Z.of_nat (String.length (digits x)), x)
  end.

Definition toString_large : string :=
  let ns := shortest (String.length (digits x)) 1 in
  match digits (snd ns) with
  | String d EmptyString => String d ("e+" ++ of_int (fst ns - 1))
  | String d r => String d ("." ++ r ++ "e+" ++ of_int (fst ns - 1))
  | EmptyString => EmptyString
  end.
End ToStringLarge.

(** [x.toFixed(f)], for [0 <= f <= 100]. *)
Definition toFixed (f : nat) (x : Number) : string :=
  match x with
  | NaN => "NaN"
  | Infinity => "Infinity"
  | NegInfinity => "-Infinity"
  | Finite m e =>
      let s := if m <? 0 then "-" else "" in
      let a := Z.abs m in
      if at_least_1e21 a e then s ++ toString_large a e
      else s ++ place_point f (round_scaled f a e)
  end.

(** A string in fixed notation with exactly [f] decimals: an optional sign, at
    least one digit, a point, and [f] digits. *)
Fixpoint fixed_unsigned (f : nat) (seen : bool) (s : string) : bool :=
  match s with
  | EmptyString => false
  | String c r =>
      if is_digit c then fixed_unsigned f true r
      else if Ascii.eqb c "." then seen && all_digits r && (String.length r =? f)%nat
      else false
  end.

Definition fixed_notation (f : nat) (s : string) : bool :=
  match s with
  | EmptyString => false
  | String c r =>
      if Ascii.eqb c "-" then fixed_unsigned f false r else fixed_unsigned f false s
  end.

End JS.

(** ** Data received from the services *)

Module Paper.
Record t : Type := mk {
  id : Z;
  title : string;
  published : string;
  authors : list string;
  summary : string;
  relevance_score : JS.Number;
  is_top : bool
}.
End Paper.

Record SearchResult : Type := {
  total : Z;
  top_papers : list Paper.t;
  papers : list Paper.t
}.

Record ErrorData : Type := { detail : option string }.

Record DownloadData : Type := { path : string; filename : string }.

(** A request is a POST with a form-encoded body of one field, [keywords]. *)
Record Request : Type := { url : string; keywords : string }.

(** How [fetch] settles.  The promise rejects with an error message, or
    resolves to a response; [response.ok] holds or not; [response.json()] then
    rejects or yields the parsed body. *)
Inductive Body (A : Type) : Type :=
| Unparsable (message : string)
| Parsed (a : A).
Arguments Unparsable {A} message.
Arguments Parsed {A} a.

Inductive Response (A : Type) : Type :=
| Ok (body : Body A)
| NotOk (status : Z) (body : Body ErrorData).
Arguments Ok {A} body.
Arguments NotOk {A} status body.

Inductive Settled (A : Type) : Type :=
| Rejected (message : string)
| Resolved (response : Response A).
Arguments Rejected {A} message.
Arguments Resolved {A} response.

(** ** What the script puts on the page

    The markup around the interpolations of a template is constant; a card and
    a row are kept as the texts interpolated into their template.  A card's
    [onclick] is a closure that assigns a URL to [window.location.href]: the
    field holds that URL.  A row's two [onclick] are attributes: the fields
    hold the attribute text as the template writes it.

    The script assigns each template to [innerHTML] as one text, without
    escaping.  The fields are the texts as written; what the page makes of
    them is read only for a click on a row, and only when the texts of the row
    leave its markup whole ([row_intact] below).  Markup inside a text, and
    whatever script it starts when it is inserted, is not followed. *)

Record Card : Type := {
  card_onclick : string;
  card_title : string;
  card_authors : string;
  card_summary : string;
  card_published : string;
  card_score : string
}.

Record Row : Type := {
  row_className : string;
  row_id : string;
  row_title_attr : string;
  row_title_onclick : string;
  row_title : string;
  row_badge : bool;           (* the "TOP" marker follows the title *)
  row_published : string;
  row_authors : string;
  row_download_onclick : string
}.

Inductive TopChild : Type :=
| Heading
| Container (cards : list Card).

(** The [a] element of a download; [node] is its identity. *)
Record Anchor : Type := { node : nat; href : string; download : string }.

(** ** The instance and the page *)

Record App : Type := mkApp {
  apiBase : string;  (* window.location.origin *)
  currentKeywords : string;
  keywordsInput : string;  (* value of the #keywords field *)
  resultsDiv_hidden : bool;  (* whether the class list of #results has 'hidden' *)
  topPapersDiv_hidden : bool;
  loadingDiv_hidden : bool;
  errorDiv_hidden : bool;
  errorDiv_textContent : string;
  totalPapersSpan_textContent : string;
  topPapersDiv : list TopChild;  (* children of #topPapers *)
  papersTable : list Row;  (* rows of the table body *)
  body : list Anchor;  (* children the script appended to document.body *)
  created : nat;  (* nodes made by document.createElement('a') so far *)
  location_href : string;  (* the last value assigned to window.location.href *)
  saved : list (string * string);  (* downloads started: URL and file name *)
  console : list string;  (* lines of console.error *)
  fetched : list Request;  (* every call of fetch, in order *)
  searching : list Request;  (* search requests that have not settled *)
  downloading : list Request  (* download requests that have not settled *)
}.

(** Assignment to one field. *)
Definition set_currentKeywords (v : string) (s : App) : App :=
  mkApp (apiBase s) v (keywordsInput s) (resultsDiv_hidden s) (topPapersDiv_hidden s)
    (loadingDiv_hidden s) (errorDiv_hidden s) (errorDiv_textContent s)
    (totalPapersSpan_textContent s) (topPapersDiv s) (papersTable s) (body s) (created
    s) (location_href s) (saved s) (console s) (fetched s) (searching s) (downloading s).
Definition set_keywordsInput (v : string) (s : App) : App :=
  mkApp (apiBase s) (currentKeywords s) v (resultsDiv_hidden s) (topPapersDiv_hidden s)
    (loadingDiv_hidden s) (errorDiv_hidden s) (errorDiv_textContent s)
    (totalPapersSpan_textContent s) (topPapersDiv s) (papersTable s) (body s) (created
    s) (location_href s) (saved s) (console s) (fetched s) (searching s) (downloading s).
Definition set_resultsDiv_hidden (v : bool) (s : App) : App :=
  mkApp (apiBase s) (currentKeywords s) (keywordsInput s) v (topPapersDiv_hidden s)
    (loadingDiv_hidden s) (errorDiv_hidden s) (errorDiv_textContent s)
    (totalPapersSpan_textContent s) (topPapersDiv s) (papersTable s) (body s) (created
    s) (location_href s) (saved s) (console s) (fetched s) (searching s) (downloading s).
Definition set_topPapersDiv_hidden (v : bool) (s : App) : App :=
  mkApp (apiBase s) (currentKeywords s) (keywordsInput s) (resultsDiv_hidden s) v
    (loadingDiv_hidden s) (errorDiv_hidden s) (errorDiv_textContent s)
    (totalPapersSpan_textContent s) (topPapersDiv s) (papersTable s) (body s) (created
    s) (location_href s) (saved s) (console s) (fetched s) (searching s) (downloading s).
Definition set_loadingDiv_hidden (v : bool) (s : App) : App :=
  mkApp (apiBase s) (currentKeywords s) (keywordsInput s) (resultsDiv_hidden s)
    (topPapersDiv_hidden s) v (errorDiv_hidden s) (errorDiv_textContent s)
    (totalPapersSpan_textContent s) (topPapersDiv s) (papersTable s) (body s) (created
    s) (location_href s) (saved s) (console s) (fetched s) (searching s) (downloading s).
Definition set_errorDiv_hidden (v : bool) (s : App) : App :=
  mkApp (apiBase s) (currentKeywords s) (keywordsInput s) (resultsDiv_hidden s)
    (topPapersDiv_hidden s) (loadingDiv_hidden s) v (errorDiv_textContent s)
    (totalPapersSpan_textContent s) (topPapersDiv s) (papersTable s) (body s) (created
    s) (location_href s) (saved s) (console s) (fetched s) (searching s) (downloading s).
Definition set_errorDiv_textContent (v : string) (s : App) : App :=
  mkApp (apiBase s) (currentKeywords s) (keywordsInput s) (resultsDiv_hidden s)
    (topPapersDiv_hidden s) (loadingDiv_hidden s) (errorDiv_hidden s) v
    (totalPapersSpan_textContent s) (topPapersDiv s) (papersTable s) (body s) (created
    s) (location_href s) (saved s) (console s) (fetched s) (searching s) (downloading s).
Definition set_totalPapersSpan_textContent (v : string) (s : App) : App :=
  mkApp (apiBase s) (currentKeywords s) (keywordsInput s) (resultsDiv_hidden s)
    (topPapersDiv_hidden s) (loadingDiv_hidden s) (errorDiv_hidden s)
    (errorDiv_textContent s) v (topPapersDiv s) (papersTable s) (body s) (created s)
    (location_href s) (saved s) (console s) (fetched s) (searching s) (downloading s).
Definition set_topPapersDiv (v : list TopChild) (s : App) : App :=
  mkApp (apiBase s) (currentKeywords s) (keywordsInput s) (resultsDiv_hidden s)
    (topPapersDiv_hidden s) (loadingDiv_hidden s) (errorDiv_hidden s)
    (errorDiv_textContent s) (totalPapersSpan_textContent s) v (papersTable s) (body s)
    (created s) (location_href s) (saved s) (console s) (fetched s) (searching s)
    (downloading s).
Definition set_papersTable (v : list Row) (s : App) : App :=
  mkApp (apiBase s) (currentKeywords s) (keywordsInput s) (resultsDiv_hidden s)
    (topPapersDiv_hidden s) (loadingDiv_hidden s) (errorDiv_hidden s)
    (errorDiv_textContent s) (totalPapersSpan_textContent s) (topPapersDiv s) v (body s)
    (created s) (location_href s) (saved s) (console s) (fetched s) (searching s)
    (downloading s).
Definition set_body (v : list Anchor) (s : App) : App :=
  mkApp (apiBase s) (currentKeywords s) (keywordsInput s) (resultsDiv_hidden s)
    (topPapersDiv_hidden s) (loadingDiv_hidden s) (errorDiv_hidden s)
    (errorDiv_textContent s) (totalPapersSpan_textContent s) (topPapersDiv s)
    (papersTable s) v (created s) (location_href s) (saved s) (console s) (fetched s)
    (searching s) (downloading s).
Definition set_created (v : nat) (s : App) : App :=
  mkApp (apiBase s) (currentKeywords s) (keywordsInput s) (resultsDiv_hidden s)
    (topPapersDiv_hidden s) (loadingDiv_hidden s) (errorDiv_hidden s)
    (errorDiv_textContent s) (totalPapersSpan_textContent s) (topPapersDiv s)
    (papersTable s) (body s) v (location_href s) (saved s) (console s) (fetched s)
    (searching s) (downloading s).
Definition set_location_href (v : string) (s : App) : App :=
  mkApp (apiBase s) (currentKeywords s) (keywordsInput s) (resultsDiv_hidden s)
    (topPapersDiv_hidden s) (loadingDiv_hidden s) (errorDiv_hidden s)
    (errorDiv_textContent s) (totalPapersSpan_textContent s) (topPapersDiv s)
    (papersTable s) (body s) (created s) v (saved s) (console s) (fetched s) (searching
    s) (downloading s).
Definition set_saved (v : list (string * string)) (s : App) : App :=
  mkApp (apiBase s) (currentKeywords s) (keywordsInput s) (resultsDiv_hidden s)
    (topPapersDiv_hidden s) (loadingDiv_hidden s) (errorDiv_hidden s)
    (errorDiv_textContent s) (totalPapersSpan_textContent s) (topPapersDiv s)
    (papersTable s) (body s) (created s) (location_href s) v (console s) (fetched s)
    (searching s) (downloading s).
Definition set_console (v : list string) (s : App) : App :=
  mkApp (apiBase s) (currentKeywords s) (keywordsInput s) (resultsDiv_hidden s)
    (topPapersDiv_hidden s) (loadingDiv_hidden s) (errorDiv_hidden s)
    (errorDiv_textContent s) (totalPapersSpan_textContent s) (topPapersDiv s)
    (papersTable s) (body s) (created s) (location_href s) (saved s) v (fetched s)
    (searching s) (downloading s).
Definition set_fetched (v : list Request) (s : App) : App :=
  mkApp (apiBase s) (currentKeywords s) (keywordsInput s) (resultsDiv_hidden s)
    (topPapersDiv_hidden s) (loadingDiv_hidden s) (errorDiv_hidden s)
    (errorDiv_textContent s) (totalPapersSpan_textContent s) (topPapersDiv s)
    (papersTable s) (body s) (created s) (location_href s) (saved s) (console s) v
    (searching s) (downloading s).
Definition set_searching (v : list Request) (s : App) : App :=
  mkApp (apiBase s) (currentKeywords s) (keywordsInput s) (resultsDiv_hidden s)
    (topPapersDiv_hidden s) (loadingDiv_hidden s) (errorDiv_hidden s)
    (errorDiv_textContent s) (totalPapersSpan_textContent s) (topPapersDiv s)
    (papersTable s) (body s) (created s) (location_href s) (saved s) (console s)
    (fetched s) v (downloading s).
Definition set_downloading (v : list Request) (s : App) : App :=
  mkApp (apiBase s) (currentKeywords s) (keywordsInput s) (resultsDiv_hidden s)
    (topPapersDiv_hidden s) (loadingDiv_hidden s) (errorDiv_hidden s)
    (errorDiv_textContent s) (totalPapersSpan_textContent s) (topPapersDiv s)
    (papersTable s) (body s) (created s) (location_href s) (saved s) (console s)
    (fetched s) (searching s) v.

(** ** Inline handlers

    A row's [onclick] attributes are script text put together by the template.
    The page compiles such a text when the element is clicked.  The two shapes
    the templates produce are read here: an assignment of a single-quoted
    literal to [window.location.href], and a call of
    [downloader.downloadPaper] on an integer and a single-quoted literal. *)

Inductive Script : Type :=
| Assign_href (value : string)
| Call_downloadPaper (paperId : Z) (keywords : string).

(** [Statement c]: the text is exactly the statement [c].  [SyntaxError]: the
    text does not compile, and a click runs nothing.  [Beyond]: the text is
    neither, or holds what is not read here (a double quote, an ampersand,
    U+0000, an escape sequence, a number that is no safe integer, further
    script after the literal). *)
Inductive Compiled : Type :=
| Statement (c : Script)
| SyntaxError
| Beyond.

(** The double quote. *)
Definition double_quote : ascii := "034"%char.

Definition occurs (c : ascii) (s : string) : bool :=
  existsb (Ascii.eqb c) (list_ascii_of_string s).

Definition count_char (c : ascii) (s : string) : nat :=
  List.length (filter (Ascii.eqb c) (list_ascii_of_string s)).

Fixpoint strip_prefix (p s : string) : option string :=
  match p, s with
  | EmptyString, _ => Some s
  | String a p', String b s' => if Ascii.eqb a b then strip_prefix p' s' else None
  | String _ _, EmptyString => None
  end.

Definition is_line_terminator (c : ascii) : bool :=
  Ascii.eqb c "010" || Ascii.eqb c "013".

(** Modelled from the spec: the markup is not among the sources.  The keywords
    field is a single-line text input; its value never holds a line break,
    and assigning to it drops them. *)
Fixpoint strip_newlines (s : string) : string :=
  match s with
  | EmptyString => EmptyString
  | String c r =>
      if is_line_terminator c then strip_newlines r else String c (strip_newlines r)
  end.

(** A single-quoted literal, read from after its opening quote. *)
Inductive Literal : Type :=
| Closed (value rest : string)
| Unterminated
| Escaped.

Fixpoint read_literal (s : string) : Literal :=
  match s with
  | EmptyString => Unterminated
  | String c r =>
      if Ascii.eqb c "'" then Closed EmptyString r
      else if Ascii.eqb c "\" then Escaped
      else if is_line_terminator c then Unterminated
      else match read_literal r with
           | Closed v rest => Closed (String c v) rest
           | other => other
           end
  end.

(** Script text with no slash, angle bracket, double quote, backquote or
    backslash holds no comment (neither [//], [/*] nor the [<!--] and [-->] of
    a page), regular expression or other kind of literal, so an odd number of
    single quotes leaves a literal open. *)
Definition leaves_literal_open (rest : string) : bool :=
  negb (occurs "/" rest) && negb (occurs "<" rest) && negb (occurs ">" rest)
  && negb (occurs double_quote rest) && negb (occurs "`" rest)
  && negb (occurs "\" rest) && Nat.odd (count_char "'" rest).

(** The literal at the head of [s], which must be followed by exactly [close]. *)
Definition literal_then (close : string) (k : string -> Script) (s : string) : Compiled :=
  match read_literal s with
  | Closed v rest =>
      if String.eqb rest close then Statement (k v)
      else if leaves_literal_open rest then SyntaxError
      else Beyond
  | Unterminated => SyntaxError
  | Escaped => Beyond
  end.

(** An integer that a Number holds exactly and prints digit for digit. *)
Definition safe_integer (z : Z) : bool := Z.abs z <=? 2 ^ 53.

(** The digits of a safe integer, as [JS.of_int] and the page both print it. *)
Definition safe_digits (n : string) : bool :=
  match NilZero.int_of_string n with
  | Some i => safe_integer (Z.of_int i) && String.eqb (JS.of_int (Z.of_int i)) n
  | None => false
  end.

Fixpoint until_comma (s : string) : string * string :=
  match s with
  | EmptyString => (EmptyString, EmptyString)
  | String c r =>
      if Ascii.eqb c "," then (EmptyString, s)
      else let '(a, b) := until_comma r in (String c a, b)
  end.

(** The text stands in a double-quoted attribute of the markup.  A double
    quote ends the attribute, and what follows it is read as markup; an
    ampersand may start a character reference; U+0000 is replaced by the page
    when it reads the attribute: texts with any of these are not read.  Nor
    is a call whose first argument is not a safe integer in plain digits
    (another literal, or a number that is printed otherwise in the URL). *)
Definition compile (text : string) : Compiled :=
  if occurs "&" text || occurs "000" text || occurs double_quote text then Beyond
  else
    match strip_prefix "window.location.href='" text with
    | Some r => literal_then "" Assign_href r
    | None =>
        match strip_prefix "downloader.downloadPaper(" text with
        | Some r =>
            let '(n, r') := until_comma r in
            match NilZero.int_of_string n, strip_prefix ", '" r' with
            | Some i, Some r'' =>
                if safe_digits n
                then literal_then ")" (Call_downloadPaper (Z.of_int i)) r''
                else Beyond
            | _, _ => Beyond
            end
        | None => Beyond
        end
    end.

(** ** Methods that may throw

    A computation runs on the state and completes normally with a value or
    abruptly with the message of the error thrown. *)

Inductive Completion (A : Type) : Type :=
| Normal (a : A) (s : App)
| Thrown (message : string) (s : App).
Arguments Normal {A} a s.
Arguments Thrown {A} message s.

Definition Run (A : Type) : Type := App -> Completion A.

Definition ret {A} (a : A) : Run A := fun s => Normal a s.

Definition bind {A B} (m : Run A) (k : A -> Run B) : Run B :=
  fun s => match m s with
           | Normal a s' => k a s'
           | Thrown e s' => Thrown e s'
           end.

Definition throw {A} (message : string) : Run A := fun s => Thrown message s.

Definition lift (f : App -> App) : Run unit := fun s => Normal tt (f s).

Notation "x <- m ;; k" := (bind m (fun x => k))
  (at level 61, m at next level, right associativity).

(** [try { body } catch (error) { handler } finally { cleanup }] *)
Definition try_catch_finally (body : Run unit) (handler : string -> App -> App)
    (cleanup : App -> App) : App -> App :=
  fun s => match body s with
           | Normal _ s' => cleanup s'
           | Thrown e s' => cleanup (handler e s')
           end.

Definition try_catch (body : Run unit) (handler : string -> App -> App) : App -> App :=
  try_catch_finally body handler (fun s => s).

(** [await fetch(...)] and [await response.json()], once settled. *)
Definition await_fetch {A} (o : Settled A) : Run (Response A) :=
  fun s => match o with
           | Rejected e => Thrown e s
           | Resolved r => Normal r s
           end.

Definition json {A} (b : Body A) : Run A :=
  fun s => match b with
           | Unparsable e => Thrown e s
           | Parsed a => Normal a s
           end.

(** A call of [fetch]: the request goes out and stays pending. *)
Definition fetch_search (r : Request) (s : App) : App :=
  set_searching (searching s ++ [r])%list (set_fetched (fetched s ++ [r])%list s).

Definition fetch_download (r : Request) (s : App) : App :=
  set_downloading (downloading s ++ [r])%list (set_fetched (fetched s ++ [r])%list s).

(** ** The class [ArxivDownloader] *)

Definition showLoading (s : App) : App :=
  set_errorDiv_hidden true
    (set_topPapersDiv_hidden true
      (set_resultsDiv_hidden true
        (set_loadingDiv_hidden false s))).

Definition hideLoading (s : App) : App := set_loadingDiv_hidden true s.

Definition showError (message : string) (s : App) : App :=
  set_errorDiv_hidden false (set_errorDiv_textContent message s).

(** [authors.slice(0, 2).join(', ')] and the suffix, as in both templates. *)
Definition authors_text (authors : list string) : string :=
  JS.join ", " (JS.slice0 2 authors)
  ++ (if (2 <? Z.of_nat (List.length authors)) then " et al." else "").

Definition createTopPaperCard (paper : Paper.t) (s : App) : Card :=
  let encodedKeywords := JS.encodeURIComponent (currentKeywords s) in
  {| card_onclick :=
       "/paper/" ++ JS.of_int (Paper.id paper) ++ "?keywords=" ++ encodedKeywords;
     card_title :=
       if 80 <? JS.length (Paper.title paper)
       then JS.substring0 80 (Paper.title paper) ++ "..."
       else Paper.title paper;
     card_authors := authors_text (Paper.authors paper);
     card_summary := Paper.summary paper;
     card_published := Paper.published paper;
     card_score := JS.toFixed 3 (Paper.relevance_score paper) |}.

Definition createPaperRow (paper : Paper.t) (s : App) : Row :=
  let encodedKeywords := JS.encodeURIComponent (currentKeywords s) in
  let relevanceClass := if Paper.is_top paper then "top-paper" else "" in
  {| row_className := relevanceClass;
     row_id := JS.of_int (Paper.id paper);
     row_title_attr := Paper.title paper;
     row_title_onclick :=
       "window.location.href='/paper/" ++ JS.of_int (Paper.id paper)
       ++ "?keywords=" ++ encodedKeywords ++ "'";
     row_title := Paper.title paper;
     row_badge := Paper.is_top paper;
     row_published := Paper.published paper;
     row_authors := authors_text (Paper.authors paper);
     row_download_onclick :=
       "downloader.downloadPaper(" ++ JS.of_int (Paper.id paper) ++ ", '"
       ++ currentKeywords s ++ "')" |}.

(** [topContainer.appendChild(card)] for every paper, in order. *)
Definition fill_container (topPapers : list Paper.t) (s : App) : list Card :=
  fold_left (fun cards paper => (cards ++ [createTopPaperCard paper s])%list) topPapers [].

Definition displayTopPapers (topPapers : list Paper.t) (s : App) : App :=
  let s := set_topPapersDiv [] s in
  if (List.length topPapers =? 0)%nat then s
  else
    let s := set_topPapersDiv (topPapersDiv s ++ [Heading])%list s in
    let topContainer := fill_container topPapers s in
    let s := set_topPapersDiv (topPapersDiv s ++ [Container topContainer])%list s in
    set_topPapersDiv_hidden false s.

Definition displayResults (data : SearchResult) (s : App) : App :=
  let s := displayTopPapers (top_papers data) s in
  let s := set_resultsDiv_hidden false s in
  let s := set_totalPapersSpan_textContent (JS.of_int (total data)) s in
  let s := set_papersTable [] s in
  fold_left (fun s paper => set_papersTable (papersTable s ++ [createPaperRow paper s])%list s)
            (papers data) s.

(** [searchPapers], up to its first [await]. *)
Definition searchPapers (s : App) : App :=
  let keywords := JS.trim (keywordsInput s) in
  let s := set_currentKeywords keywords s in
  if negb (JS.truthy keywords) then showError "Please enter keywords" s
  else
    let s := showLoading s in
    fetch_search {| url := apiBase s ++ "/search"; keywords := keywords |} s.

(** [searchPapers], from the moment its request has settled as [o].  Nothing
    is read or written between the two [await]s, so they are one step. *)
Definition searchPapers_resume (o : Settled SearchResult) : App -> App :=
  try_catch_finally
    (response <- await_fetch o ;;
     match response with
     | NotOk status body =>
         errorData <- json body ;;
         throw (JS.or_else (detail errorData) ("API Error: " ++ JS.of_int status))
     | Ok body =>
         data <- json body ;;
         lift (displayResults data)
     end)
    (fun error s =>
       showError ("Search failed: " ++ error)
                 (set_console (console s ++ [("Search error: " ++ error)%string])%list s))
    hideLoading.

(** [downloadPaper], up to its first [await]. *)
Definition downloadPaper (paperId : Z) (keywords : string) (s : App) : App :=
  fetch_download {| url := apiBase s ++ "/download/" ++ JS.of_int paperId;
                    keywords := keywords |} s.

(** *** Where a link leads

    [link.href] is the origin followed by the path, joined as text.  When the
    link is clicked the page reads that text as a URL.  [Own]: a URL of the
    page's own origin.  [NoURL]: not a URL, nothing is requested.  [Unread]:
    a URL of another origin, or a text that is not settled here. *)
Inductive Target : Type :=
| Own
| NoURL
| Unread.

(** What may follow an origin and stay at that origin: nothing, or the start
    of a path, a query or a fragment. *)
Definition begins_path (rest : string) : bool :=
  match rest with
  | EmptyString => true
  | String c _ => occurs c "/?#"
  end.

Definition is_host_char (c : ascii) : bool :=
  let n := N_of_ascii c in
  ((97 <=? n) && (n <=? 122))%N || JS.is_digit c || occurs c ".-".

(** A host of lower-case letters, digits, dots and hyphens, then a port or
    nothing. *)
Fixpoint host_then_port (s : string) (seen : bool) : bool :=
  match s with
  | EmptyString => seen
  | String c r =>
      if Ascii.eqb c ":"
      then seen && match r with EmptyString => false | _ => JS.all_digits r end
      else is_host_char c && host_then_port r true
  end.

(** [window.location.origin] of a page served over [http] or [https]: the
    scheme, the host, and the port when it is not the default one. *)
Definition is_http (origin : string) : bool :=
  match strip_prefix "http://" origin, strip_prefix "https://" origin with
  | Some r, _ => host_then_port r false
  | None, Some r => host_then_port r false
  | None, None => false
  end.

(** The origin names its port: read from its end, digits and then a colon. *)
Fixpoint digits_then_colon (reversed : list ascii) (seen : bool) : bool :=
  match reversed with
  | [] => false
  | c :: t =>
      if JS.is_digit c then digits_then_colon t true
      else seen && Ascii.eqb c ":"
  end.

Definition names_port (origin : string) : bool :=
  digits_then_colon (rev (list_ascii_of_string origin)) false.

(** The characters up to the first one that ends the authority of a URL. *)
Fixpoint authority_part (rest : string) : string :=
  match rest with
  | EmptyString => EmptyString
  | String c r => if occurs c "/?#\" then EmptyString else String c (authority_part r)
  end.

(** A space or a control character: the page drops some of these before it
    reads a URL. *)
Definition has_blank (s : string) : bool :=
  existsb (fun c => (N_of_ascii c <=? 32)%N) (list_ascii_of_string s).

(** After an origin that names its port, text that does not begin a path runs
    on as the port, and a port holding anything but digits makes the whole
    text no URL.  After an origin without a port it runs on as the host. *)
Definition target (origin href : string) : Target :=
  match strip_prefix origin href with
  | None => Unread
  | Some rest =>
      if negb (is_http origin) then Unread
      else if begins_path rest then Own
      else if has_blank rest then Unread
      else
        let a := authority_part rest in
        if names_port origin && negb (occurs "@" a) && negb (JS.all_digits a)
        then NoURL
        else Unread
  end.

(** The success branch: a link is created, appended, clicked and removed.
    Clicking a link that has a [download] attribute and leads to the page's
    own origin starts a download of its [href] under that name and does not
    navigate; clicking a link whose [href] is no URL does nothing. *)
Definition createElement_a (s : App) : nat * App :=
  (created s, set_created (S (created s)) s).

Definition appendChild (a : Anchor) (s : App) : App := set_body (body s ++ [a])%list s.

Definition click (a : Anchor) (s : App) : App :=
  match target (apiBase s) (href a) with
  | Own => set_saved (saved s ++ [(href a, download a)])%list s
  | NoURL => s
  | Unread => s
  end.

Definition removeChild (a : Anchor) (s : App) : App :=
  set_body (filter (fun b => negb (node b =? node a)%nat) (body s)) s.

Definition save (data : DownloadData) (s : App) : App :=
  let '(n, s) := createElement_a s in
  let link := {| node := n; href := apiBase s ++ path data; download := filename data |} in
  let s := appendChild link s in
  let s := click link s in
  removeChild link s.

(** [downloadPaper], from the moment its request has settled as [o]. *)
Definition downloadPaper_resume (o : Settled DownloadData) : App -> App :=
  try_catch
    (response <- await_fetch o ;;
     match response with
     | Ok body =>
         data <- json body ;;
         lift (save data)
     | NotOk _ body =>
         data <- json body ;;
         throw (JS.or_else (detail data) "Download failed")
     end)
    (fun error s => showError ("Download failed: " ++ error) s).

(** Modelled from the spec: the page markup is not among the sources.  When
    the script starts the view is idle: no indicator is visible, the field is
    empty and nothing has been rendered. *)
Definition page (origin : string) : App :=
  {| apiBase := origin;
     currentKeywords := "";
     keywordsInput := "";
     resultsDiv_hidden := true;
     topPapersDiv_hidden := true;
     loadingDiv_hidden := true;
     errorDiv_hidden := true;
     errorDiv_textContent := "";
     totalPapersSpan_textContent := "";
     topPapersDiv := [];
     papersTable := [];
     body := [];
     created := O;
     location_href := "";
     saved := [];
     console := [];
     fetched := [];
     searching := [];
     downloading := [] |}.

(** [keywordsInput.value = v] *)
Definition set_value (v : string) (s : App) : App :=
  set_keywordsInput (strip_newlines v) s.

(** [init], after the elements are looked up and the listeners registered:
    [savedKeywords] is the [keywords] parameter of the page's URL. *)
Definition init (savedKeywords : option string) (s : App) : App :=
  match savedKeywords with
  | Some k => if JS.truthy k then searchPapers (set_value k s) else s
  | None => s
  end.

(** [new ArxivDownloader()] *)
Definition new_ArxivDownloader (origin : string) (savedKeywords : option string) : App :=
  init savedKeywords (page origin).

(** ** Events

    The page is single-threaded: each event runs its handler to the next
    [await] or to the end.  A request settles at any later time, in any order. *)

Inductive Event : Type :=
| Edit (value : string)                       (* the user changes the field *)
| Click_searchBtn
| Keypress (key : string)                     (* in the field *)
| Search_settles (i : nat) (o : Settled SearchResult)
| Click_card (i : nat)
| Click_title (i : nat)
| Click_download (i : nat)
| Download_settles (i : nat) (o : Settled DownloadData).

Fixpoint remove_nth {A} (i : nat) (l : list A) : list A :=
  match i, l with
  | _, [] => []
  | O, _ :: t => t
  | S j, h :: t => h :: remove_nth j t
  end.

Definition cards_of (children : list TopChild) : list Card :=
  flat_map (fun c => match c with Heading => [] | Container cards => cards end) children.

(** A click on an element with an inline handler. *)
Definition run_inline (text : string) (s : App) : option App :=
  match compile text with
  | Statement (Assign_href u) => Some (set_location_href u s)
  | Statement (Call_downloadPaper paperId keywords) => Some (downloadPaper paperId keywords s)
  | SyntaxError => Some s
  | Beyond => None
  end.

(** The page holds the row as it is held here.  Its texts leave the markup
    whole: no double quote in the title, which also stands in an attribute
    ahead of the [onclick], and no opening angle bracket in the texts of the
    cells ahead of the button.  And its id is a safe integer, printed in the
    page with the digits it has here. *)
Definition row_intact (r : Row) : bool :=
  safe_digits (row_id r)
  && negb (occurs double_quote (row_title_attr r))
  && negb (occurs "<" (row_title r))
  && negb (occurs "<" (row_published r))
  && negb (occurs "<" (row_authors r)).

(** A click on the title or on the button of a row. *)
Definition click_row (text : string) (r : Row) (s : App) : option App :=
  if row_intact r then run_inline text s else None.

(** A download whose link is read: every settling but a success whose link
    is [Unread]. *)
Definition link_read (o : Settled DownloadData) (s : App) : bool :=
  match o with
  | Resolved (Ok (Parsed data)) =>
      match target (apiBase s) (apiBase s ++ path data) with
      | Unread => false
      | _ => true
      end
  | _ => true
  end.

(** [None]: the event cannot happen in [s] (no such element or request), or the
    model does not cover it: a click on a row whose markup is not whole, whose
    id is no safe integer or whose handler is [Beyond], or a successful download
    whose link is [Unread].  In the page these events happen, and may run any
    script or leave the page. *)
Definition handle (e : Event) (s : App) : option App :=
  match e with
  | Edit v => Some (set_value v s)
  | Click_searchBtn => Some (searchPapers s)
  | Keypress key => Some (if String.eqb key "Enter" then searchPapers s else s)
  | Search_settles i o =>
      match nth_error (searching s) i with
      | Some _ => Some (searchPapers_resume o (set_searching (remove_nth i (searching s)) s))
      | None => None
      end
  | Click_card i =>
      match nth_error (cards_of (topPapersDiv s)) i with
      | Some c => Some (set_location_href (card_onclick c) s)
      | None => None
      end
  | Click_title i =>
      match nth_error (papersTable s) i with
      | Some r => click_row (row_title_onclick r) r s
      | None => None
      end
  | Click_download i =>
      match nth_error (papersTable s) i with
      | Some r => click_row (row_download_onclick r) r s
      | None => None
      end
  | Download_settles i o =>
      match nth_error (downloading s) i with
      | Some _ =>
          if link_read o s
          then Some (downloadPaper_resume o
                       (set_downloading (remove_nth i (downloading s)) s))
          else None
      | None => None
      end
  end.

Fixpoint run (es : list Event) (s : App) : option App :=
  match es with
  | [] => Some s
  | e :: es' => match handle e s with
                | Some s' => run es' s'
                | None => None
                end
  end.

(** An event that cannot happen in [s]: there is no such request, card or
    row. *)
Definition impossible (e : Event) (s : App) : Prop :=
  match e with
  | Search_settles i _ => nth_error (searching s) i = None
  | Click_card i => nth_error (cards_of (topPapersDiv s)) i = None
  | Click_title i => nth_error (papersTable s) i = None
  | Click_download i => nth_error (papersTable s) i = None
  | Download_settles i _ => nth_error (downloading s) i = None
  | _ => False
  end.

(** An event that can happen in [s] and that the model does not cover: a click
    on a row whose markup is not whole, whose id is no safe integer or whose
    handler is neither one of the two statements of the templates nor a text
    that does not compile, and a successful download whose link may lead to
    another origin.  Such an event may run script that the class does not hold,
    or leave the page. *)
Definition uncovered (e : Event) (s : App) : Prop :=
  match e with
  | Click_title i =>
      exists r, nth_error (papersTable s) i = Some r
                /\ (row_intact r = false \/ compile (row_title_onclick r) = Beyond)
  | Click_download i =>
      exists r, nth_error (papersTable s) i = Some r
                /\ (row_intact r = false \/ compile (row_download_onclick r) = Beyond)
  | Download_settles i o =>
      (exists r, nth_error (downloading s) i = Some r) /\ link_read o s = false
  | _ => False
  end.

(** The states reached from page load through events that the model covers.
    The states the page reaches after an event that is [uncovered], or after
    script that a text of a response starts by itself when it is inserted as
    markup, are not among them. *)
Inductive reachable (origin : string) (savedKeywords : option string) : App -> Prop :=
| reachable_new : reachable origin savedKeywords (new_ArxivDownloader origin savedKeywords)
| reachable_step (s s' : App) (e : Event) :
    reachable origin savedKeywords s -> handle e s = Some s' ->
    reachable origin savedKeywords s'.

(** The view, read off the three indicators. *)
Definition loading_visible (s : App) : bool := negb (loadingDiv_hidden s).
Definition results_visible (s : App) : bool := negb (resultsDiv_hidden s).
Definition highlight_visible (s : App) : bool := negb (topPapersDiv_hidden s).
Definition error_visible (s : App) : bool := negb (errorDiv_hidden s).

(** The events that call [searchPapers]. *)
Definition submits (e : Event) : bool :=
  match e with
  | Click_searchBtn => true
  | Keypress key => String.eqb key "Enter"
  | _ => false
  end.

(** A request succeeded when it resolved to an ok response with a body that
    parses. *)
Definition succeeded {A} (o : Settled A) : bool :=
  match o with
  | Resolved (Ok (Parsed _)) => true
  | _ => false
  end.

(** What [displayTopPapers] leaves in the highlight strip. *)
Definition highlight (topPapers : list Paper.t) (s : App) : list TopChild :=
  match topPapers with
  | [] => []
  | _ => [Heading; Container (map (fun paper => createTopPaperCard paper s) topPapers)]
  end.

(** The message of the error that a settled request makes the method throw,
    if it does: the message of the rejection or of the parse failure, or for a
    response that is not ok the [detail] of its body, and [fallback] of the
    status when the body has none. *)
Definition error_message {A} (fallback : Z -> string) (o : Settled A) : option string :=
  match o with
  | Rejected m => Some m
  | Resolved (Ok (Unparsable m)) => Some m
  | Resolved (Ok (Parsed _)) => None
  | Resolved (NotOk _ (Unparsable m)) => Some m
  | Resolved (NotOk status (Parsed e)) => Some (JS.or_else (detail e) (fallback status))
  end.

(** Every node under [document.body] was made by an earlier [createElement]. *)
Definition nodes_known (s : App) : Prop :=
  Forall (fun a => (node a < created s)%nat) (body s).

(** While the loading indicator shows, the results view and the highlight
    strip are hidden. *)
Definition loading_excludes_results (s : App) : Prop :=
  loadingDiv_hidden s = false ->
  resultsDiv_hidden s = true /\ topPapersDiv_hidden s = true.

(** Keywords that can stand between single quotes inside a double-quoted
    attribute as they are: no quote of either kind, no backslash, no
    ampersand, no line terminator, no U+0000. *)
Definition plain_text (s : string) : bool :=
  negb (occurs "'" s) && negb (occurs double_quote s) && negb (occurs "\" s)
  && negb (occurs "&" s) && negb (occurs "010" s) && negb (occurs "013" s)
  && negb (occurs "000" s).

(** ** The query string of the page

    [init] reads [new URLSearchParams(window.location.search).get('keywords')].
    The constructor drops a leading question mark and parses the rest as a
    form: pieces between ampersands, each cut at its first equals sign, plus
    signs turned into spaces, percent escapes turned into bytes, and the bytes
    read as UTF-8. *)

Module URLSearchParams.

(** The UTF-8 bytes of a code unit below 256, and of a string. *)
Definition utf8_unit (c : ascii) : string :=
  let n := N_of_ascii c in
  if (n <? 128)%N then String c EmptyString
  else String (ascii_of_N (192 + n / 64)) (String (ascii_of_N (128 + n mod 64)) EmptyString).

Fixpoint utf8_encode (s : string) : string :=
  match s with
  | EmptyString => EmptyString
  | String c r => utf8_unit c ++ utf8_encode r
  end.

(** Bytes read as UTF-8.  [None]: the text holds a code point above 255 or a
    malformed sequence (read as U+FFFD), and so leaves the strings kept here. *)
Fixpoint utf8_decode (bytes : string) : option string :=
  match bytes with
  | EmptyString => Some EmptyString
  | String b t =>
      let n := N_of_ascii b in
      if (n <? 128)%N then option_map (String b) (utf8_decode t)
      else if ((n =? 194) || (n =? 195))%N then
        match t with
        | String b2 t' =>
            let m := N_of_ascii b2 in
            if ((128 <=? m) && (m <? 192))%N
            then option_map (String (ascii_of_N ((n - 192) * 64 + (m - 128))))
                            (utf8_decode t')
            else None
        | EmptyString => None
        end
      else None
  end.

Definition hex_value (c : ascii) : option N :=
  let n := N_of_ascii c in
  if ((48 <=? n) && (n <=? 57))%N then Some (n - 48)%N
  else if ((65 <=? n) && (n <=? 70))%N then Some (n - 55)%N
  else if ((97 <=? n) && (n <=? 102))%N then Some (n - 87)%N
  else None.

(** A percent sign followed by two hexadecimal digits is the byte they name;
    any other byte, a lone percent sign included, stands for itself. *)
Fixpoint percent_decode (bytes : string) : string :=
  match bytes with
  | EmptyString => EmptyString
  | String b t =>
      if Ascii.eqb b "%" then
        match t with
        | String h (String l rest) =>
            match hex_value h, hex_value l with
            | Some x, Some y => String (ascii_of_N (16 * x + y)) (percent_decode rest)
            | _, _ => String b (percent_decode t)
            end
        | _ => String b (percent_decode t)
        end
      else String b (percent_decode t)
  end.

Fixpoint plus_to_space (s : string) : string :=
  match s with
  | EmptyString => EmptyString
  | String c r => String (if Ascii.eqb c "+" then " "%char else c) (plus_to_space r)
  end.

(** A name or a value of the form, decoded. *)
Definition form_decode (s : string) : option string :=
  utf8_decode (percent_decode (utf8_encode (plus_to_space s))).

(** The pieces between occurrences of [sep]. *)
Fixpoint split (sep : ascii) (s : string) : list string :=
  match s with
  | EmptyString => [EmptyString]
  | String c r =>
      if Ascii.eqb c sep then EmptyString :: split sep r
      else match split sep r with
           | p :: ps => String c p :: ps
           | [] => [String c EmptyString]
           end
  end.

(** A piece cut at its first equals sign; the value is empty without one. *)
Fixpoint name_value (s : string) : string * string :=
  match s with
  | EmptyString => (EmptyString, EmptyString)
  | String c r =>
      if Ascii.eqb c "=" then (EmptyString, r)
      else let '(n, v) := name_value r in (String c n, v)
  end.

Definition strip_question (s : string) : string :=
  match s with
  | String c r => if Ascii.eqb c "?" then r else s
  | EmptyString => s
  end.

Fixpoint decode_pieces (pieces : list string) : option (list (string * string)) :=
  match pieces with
  | [] => Some []
  | p :: ps =>
      match p with
      | EmptyString => decode_pieces ps
      | _ =>
          let '(n, v) := name_value p in
          match form_decode n, form_decode v, decode_pieces ps with
          | Some n', Some v', Some rest => Some ((n', v') :: rest)
          | _, _, _ => None
          end
      end
  end.

(** [new URLSearchParams(search)]: the list of name-value pairs, in order. *)
Definition parse (search : string) : option (list (string * string)) :=
  decode_pieces (split "&" (strip_question search)).

(** [params.get(name)]: the value of the first pair of that name, or null. *)
Fixpoint get (name : string) (params : list (string * string)) : option string :=
  match params with
  | [] => None
  | (n, v) :: rest => if String.eqb n name then Some v else get name rest
  end.

End URLSearchParams.

(** The script starting on a page whose URL has the query string [search].
    [None]: the query string decodes to text outside the strings kept here. *)
Definition load (origin search : string) : option App :=
  match URLSearchParams.parse search with
  | Some params => Some (new_ArxivDownloader origin (URLSearchParams.get "keywords" params))
  | None => None
  end.

(** ** The variant without a highlight strip

    The second script of the repository is the same class on a page that has
    no [#topPapers] element: [init] fills the field from the URL but does not
    search, [showLoading] and [displayResults] do not touch a strip, and a row
    has no class and no marker.  [hideLoading], [showError] and
    [downloadPaper] are the same text and are shared. *)

Module Basic.

Definition showLoading (s : App) : App :=
  set_errorDiv_hidden true
    (set_resultsDiv_hidden true
      (set_loadingDiv_hidden false s)).

Definition createPaperRow (paper : Paper.t) (s : App) : Row :=
  let encodedKeywords := JS.encodeURIComponent (currentKeywords s) in
  {| row_className := "";
     row_id := JS.of_int (Paper.id paper);
     row_title_attr := Paper.title paper;
     row_title_onclick :=
       "window.location.href='/paper/" ++ JS.of_int (Paper.id paper)
       ++ "?keywords=" ++ encodedKeywords ++ "'";
     row_title := Paper.title paper;
     row_badge := false;
     row_published := Paper.published paper;
     row_authors := authors_text (Paper.authors paper);
     row_download_onclick :=
       "downloader.downloadPaper(" ++ JS.of_int (Paper.id paper) ++ ", '"
       ++ currentKeywords s ++ "')" |}.

Definition displayResults (data : SearchResult) (s : App) : App :=
  let s := set_resultsDiv_hidden false s in
  let s := set_totalPapersSpan_textContent (JS.of_int (total data)) s in
  let s := set_papersTable [] s in
  fold_left (fun s paper => set_papersTable (papersTable s ++ [createPaperRow paper s])%list s)
            (papers data) s.

Definition searchPapers (s : App) : App :=
  let keywords := JS.trim (keywordsInput s) in
  let s := set_currentKeywords keywords s in
  if negb (JS.truthy keywords) then showError "Please enter keywords" s
  else
    let s := showLoading s in
    fetch_search {| url := apiBase s ++ "/search"; keywords := keywords |} s.

Definition searchPapers_resume (o : Settled SearchResult) : App -> App :=
  try_catch_finally
    (response <- await_fetch o ;;
     match response with
     | NotOk status body =>
         errorData <- json body ;;
         throw (JS.or_else (detail errorData) ("API Error: " ++ JS.of_int status))
     | Ok body =>
         data <- json body ;;
         lift (displayResults data)
     end)
    (fun error s =>
       showError ("Search failed: " ++ error)
                 (set_console (console s ++ [("Search error: " ++ error)%string])%list s))
    hideLoading.

Definition init (savedKeywords : option string) (s : App) : App :=
  match savedKeywords with
  | Some k => if JS.truthy k then set_value k s else s
  | None => s
  end.

Definition new_ArxivDownloader (origin : string) (savedKeywords : option string) : App :=
  init savedKeywords (page origin).

(** The page of this variant has no cards to click. *)
Definition handle (e : Event) (s : App) : option App :=
  match e with
  | Edit v => Some (set_value v s)
  | Click_searchBtn => Some (searchPapers s)
  | Keypress key => Some (if String.eqb key "Enter" then searchPapers s else s)
  | Search_settles i o =>
      match nth_error (searching s) i with
      | Some _ => Some (searchPapers_resume o (set_searching (remove_nth i (searching s)) s))
      | None => None
      end
  | Click_card _ => None
  | Click_title i =>
      match nth_error (papersTable s) i with
      | Some r => click_row (row_title_onclick r) r s
      | None => None
      end
  | Click_download i =>
      match nth_error (papersTable s) i with
      | Some r => click_row (row_download_onclick r) r s
      | None => None
      end
  | Download_settles i o =>
      match nth_error (downloading s) i with
      | Some _ =>
          if link_read o s
          then Some (downloadPaper_resume o
                       (set_downloading (remove_nth i (downloading s)) s))
          else None
      | None => None
      end
  end.

Fixpoint run (es : list Event) (s : App) : option App :=
  match es with
  | [] => Some s
  | e :: es' => match handle e s with
                | Some s' => run es' s'
                | None => None
                end
  end.

End Basic.




(** ** Requests *)

(** The two kinds of request the script sends: a search, with keywords that
    are trimmed and not empty, and a download of one paper. *)
Definition search_request (origin : string) (r : Request) : Prop :=
  url r = origin ++ "/search"
  /\ JS.truthy (keywords r) = true
  /\ JS.trim (keywords r) = keywords r.

Definition download_request (origin : string) (r : Request) : Prop :=
  exists paperId : Z,
    safe_integer paperId = true
    /\ url r = origin ++ "/download/" ++ JS.of_int paperId.

(** What holds of the requests between any two events. *)
Record requests_in_order (origin : string) (s : App) : Prop := {
  own_origin : apiBase s = origin;
  context_trimmed : JS.trim (currentKeywords s) = currentKeywords s;
  sent_searches : Forall (search_request origin) (searching s);
  sent_downloads : Forall (download_request origin) (downloading s);
  sent_all : Forall (fun r => search_request origin r \/ download_request origin r)
                    (fetched s);
  pending_sent : incl (searching s ++ downloading s)%list (fetched s);
  loading_pending : loadingDiv_hidden s = false -> searching s <> []
}.

(** The characters of a link to a paper: those that [encodeURIComponent]
    keeps, the percent sign, and the three of the path and the query. *)
Definition is_link_char (c : ascii) : bool :=
  JS.is_uri_unreserved c || occurs c "%/?=".

(** ** Sample data *)

Module Sample.

Definition origin : string := "http://localhost:8000".

Definition paper7 : Paper.t :=
  Paper.mk 7 "Quantum error correction below threshold" "2024-08-24"
           ["A"; "B"; "C"] "Surface codes." (JS.Finite 7 (-3)) true.

Definition paper8 : Paper.t :=
  Paper.mk 8 "Quantum walks on graphs" "2023-02-11"
           ["A"; "B"] "Walks." (JS.Finite 5 (-4)) false.


Definition paper_huge : Paper.t :=
  Paper.mk 5 "Scores without bound" "2021-01-01" ["E"] "Large." (JS.Finite (10 ^ 21) 0) true.

Definition quantum : SearchResult :=
  {| total := 42; top_papers := [paper7]; papers := [paper7; paper8] |}.


Definition ok {A} (a : A) : Settled A := Resolved (Ok (Parsed a)).



(** A search that succeeds. *)
Definition searched : list Event :=
  [Edit " quantum "; Click_searchBtn; Search_settles 0 (ok quantum)].

(** A search whose keywords hold an apostrophe. *)
Definition apostrophe : list Event :=
  [Edit "it's"; Click_searchBtn; Search_settles 0 (ok quantum)].

End Sample.

(** * Properties *)

(** ** Trimming *)

Lemma trimEnd_blank (s : string) :
  JS.all_white_space s = true -> JS.trimEnd s = "".
Proof.
  unfold JS.all_white_space.
  induction s as [|c r IH]; simpl; [reflexivity|].
  intros H. apply andb_true_iff in H as [Hc Hr].
  rewrite (IH Hr), Hc. reflexivity.
Qed.

Lemma trimEnd_empty_inv (s : string) :
  JS.trimEnd s = "" -> JS.all_white_space s = true.
Proof.
  unfold JS.all_white_space.
  induction s as [|c r IH]; simpl; [reflexivity|].
  destruct (JS.trimEnd r) eqn:E; [|discriminate].
  destruct (JS.is_white_space c) eqn:Hc; [|discriminate].
  intros _. now rewrite IH.
Qed.

Lemma trimStart_blank (s : string) :
  JS.all_white_space s = true -> JS.trimStart s = "".
Proof.
  unfold JS.all_white_space.
  induction s as [|c r IH]; simpl; [reflexivity|].
  intros H. apply andb_true_iff in H as [Hc Hr].
  rewrite Hc. auto.
Qed.

Lemma trimStart_white (s : string) :
  JS.all_white_space (JS.trimStart s) = true -> JS.all_white_space s = true.
Proof.
  unfold JS.all_white_space.
  induction s as [|c r IH]; simpl; [reflexivity|].
  destruct (JS.is_white_space c) eqn:Hc; simpl.
  - auto.
  - rewrite Hc. discriminate.
Qed.

(** The trimmed value is empty exactly for the inputs made of white space. *)
Lemma trim_empty_iff (s : string) :
  JS.trim s = "" <-> JS.all_white_space s = true.
Proof.
  unfold JS.trim. split.
  - intros H. apply trimStart_white, trimEnd_empty_inv, H.
  - intros H. rewrite (trimStart_blank s H). reflexivity.
Qed.

Lemma truthy_false_iff (s : string) : JS.truthy s = false <-> s = "".
Proof. destruct s; simpl; split; congruence. Qed.

(** ** Rendering *)

Lemma forEach_rows (ps : list Paper.t) (s : App) :
  fold_left (fun s paper => set_papersTable (papersTable s ++ [createPaperRow paper s])%list s)
            ps s
  = set_papersTable (papersTable s ++ map (fun paper => createPaperRow paper s) ps)%list s.
Proof.
  revert s. induction ps as [|p ps IH]; intros s; simpl.
  - rewrite app_nil_r. destruct s; reflexivity.
  - rewrite IH. simpl. rewrite <- app_assoc. reflexivity.
Qed.

Lemma forEach_cards (ps : list Paper.t) (s : App) (acc : list Card) :
  fold_left (fun cards paper => (cards ++ [createTopPaperCard paper s])%list) ps acc
  = (acc ++ map (fun paper => createTopPaperCard paper s) ps)%list.
Proof.
  revert acc. induction ps as [|p ps IH]; intros acc; simpl.
  - now rewrite app_nil_r.
  - rewrite IH, <- app_assoc. reflexivity.
Qed.

Lemma fill_container_map (ps : list Paper.t) (s : App) :
  fill_container ps s = map (fun paper => createTopPaperCard paper s) ps.
Proof. unfold fill_container. now rewrite forEach_cards. Qed.

Lemma displayTopPapers_eq (tp : list Paper.t) (s : App) :
  displayTopPapers tp s
  = match tp with
    | [] => set_topPapersDiv [] s
    | _ => set_topPapersDiv_hidden false (set_topPapersDiv (highlight tp s) s)
    end.
Proof.
  unfold displayTopPapers. destruct tp as [|p tp]; [reflexivity|].
  cbn [List.length Nat.eqb]. rewrite fill_container_map. reflexivity.
Qed.

Lemma displayResults_eq (d : SearchResult) (s : App) :
  displayResults d s
  = set_papersTable (map (fun paper => createPaperRow paper s) (papers d))
      (set_totalPapersSpan_textContent (JS.of_int (total d))
        (set_resultsDiv_hidden false (displayTopPapers (top_papers d) s))).
Proof.
  unfold displayResults. rewrite forEach_rows. rewrite displayTopPapers_eq.
  destruct (top_papers d); reflexivity.
Qed.

(** [displayResults] touches the highlight strip, the results view, the total
    and the table, and nothing else. *)
Lemma displayResults_frame (d : SearchResult) (s : App) :
  let s' := displayResults d s in
  currentKeywords s' = currentKeywords s
  /\ keywordsInput s' = keywordsInput s
  /\ loadingDiv_hidden s' = loadingDiv_hidden s
  /\ errorDiv_hidden s' = errorDiv_hidden s
  /\ errorDiv_textContent s' = errorDiv_textContent s
  /\ resultsDiv_hidden s' = false
  /\ body s' = body s /\ created s' = created s
  /\ location_href s' = location_href s /\ saved s' = saved s
  /\ fetched s' = fetched s
  /\ searching s' = searching s /\ downloading s' = downloading s.
Proof.
  cbv zeta. rewrite displayResults_eq, displayTopPapers_eq.
  destruct (top_papers d); repeat split; reflexivity.
Qed.






(** ** Submitting *)

Lemma handle_submit (e : Event) (s : App) :
  submits e = true -> handle e s = Some (searchPapers s).
Proof.
  destruct e; simpl; try discriminate; [reflexivity|].
  intros H. now rewrite H.
Qed.



(** C3.  A submit whose trimmed input is empty shows the error "Please enter
    keywords" at once: the loading indicator is not touched and no request is
    issued. *)
Theorem blank_submit_is_error (s : App) (raw : string) (e : Event) :
  submits e = true ->
  JS.trim raw = "" ->
  exists s',
    handle e (set_keywordsInput raw s) = Some s'
    /\ errorDiv_textContent s' = "Please enter keywords"
    /\ error_visible s' = true
    /\ loading_visible s' = loading_visible s
    /\ fetched s' = fetched s
    /\ searching s' = searching s
    /\ downloading s' = downloading s.
Proof.
  intros He Hraw. eexists. split; [apply (handle_submit _ _ He)|].
  unfold searchPapers. cbn [keywordsInput set_keywordsInput].
  rewrite Hraw. cbn. repeat split.
Qed.

Lemma blank_submit_is_error_witness :
  exists s',
    handle Click_searchBtn (set_keywordsInput "   " (page "http://localhost")) = Some s'
    /\ errorDiv_textContent s' = "Please enter keywords"
    /\ error_visible s' = true
    /\ loading_visible s' = loading_visible (page "http://localhost")
    /\ fetched s' = fetched (page "http://localhost")
    /\ searching s' = searching (page "http://localhost")
    /\ downloading s' = downloading (page "http://localhost").
Proof.
  apply (blank_submit_is_error (page "http://localhost") "   " Click_searchBtn);
    reflexivity.
Defined.





(** ** Reachable states *)

(** The model follows every event that can happen, except the uncovered
    ones. *)
Lemma handle_None_iff (e : Event) (s : App) :
  handle e s = None <-> impossible e s \/ uncovered e s.
Proof.
  assert (R : forall text s0, run_inline text s0 = None <-> compile text = Beyond).
  { intros text s0. unfold run_inline.
    destruct (compile text) as [[u | n k] | |]; split; intros H;
      try discriminate; reflexivity. }
  destruct e as [v | | key | i o | i | i | i | i o];
    cbn [handle impossible uncovered].
  - split; [discriminate | intros [[] | []]].
  - split; [discriminate | intros [[] | []]].
  - split; [discriminate | intros [[] | []]].
  - destruct (nth_error (searching s) i); split; try discriminate; auto.
    intros [H | []]. discriminate H.
  - destruct (nth_error (cards_of (topPapersDiv s)) i); split; try discriminate; auto.
    intros [H | []]. discriminate H.
  - destruct (nth_error (papersTable s) i) as [r|]; [|split; auto].
    unfold click_row. destruct (row_intact r) eqn:I.
    + rewrite R. split.
      * intros B. right. exists r. auto.
      * intros [H | (r' & E & [H | H])]; try discriminate;
          inversion E; subst; congruence.
    + split; [intros _; right; exists r; auto | reflexivity].
  - destruct (nth_error (papersTable s) i) as [r|]; [|split; auto].
    unfold click_row. destruct (row_intact r) eqn:I.
    + rewrite R. split.
      * intros B. right. exists r. auto.
      * intros [H | (r' & E & [H | H])]; try discriminate;
          inversion E; subst; congruence.
    + split; [intros _; right; exists r; auto | reflexivity].
  - destruct (nth_error (downloading s) i) as [r|]; [|split; auto].
    destruct (link_read o s).
    + split; [discriminate | intros [H | [_ H]]; discriminate].
    + split; [intros _; right; split; [now exists r | reflexivity] | reflexivity].
Qed.

Lemma run_reachable (origin : string) (saved0 : option string) (es : list Event) :
  forall s s', reachable origin saved0 s -> run es s = Some s' ->
               reachable origin saved0 s'.
Proof.
  induction es as [|e es IH]; simpl; intros s s' Hs Hrun.
  - now inversion Hrun; subst.
  - destruct (handle e s) as [s1|] eqn:He; [|discriminate].
    apply (IH s1); [|exact Hrun].
    now apply (reachable_step origin saved0 s s1 e).
Qed.

(** ** Overlapping searches *)




(** ** The indicators *)

Lemma searchPapers_resume_loading (o : Settled SearchResult) (s : App) :
  loadingDiv_hidden (searchPapers_resume o s) = true.
Proof.
  unfold searchPapers_resume, try_catch_finally.
  match goal with |- context [match ?b with _ => _ end] => destruct b end;
    reflexivity.
Qed.

Lemma searchPapers_resume_context (o : Settled SearchResult) (s : App) :
  currentKeywords (searchPapers_resume o s) = currentKeywords s.
Proof.
  unfold searchPapers_resume, try_catch_finally, bind, await_fetch, json, throw, lift.
  destruct o as [m | [[m | d] | st [m | err]]]; try reflexivity.
  cbn [hideLoading set_loadingDiv_hidden currentKeywords].
  apply (displayResults_frame d s).
Qed.

Ltac open_save :=
  unfold downloadPaper_resume, try_catch, try_catch_finally, bind, await_fetch, json,
    lift, save, createElement_a, removeChild, appendChild, click;
  cbn -[target filter app];
  match goal with |- context [target ?a ?b] => destruct (target a b) end.

Lemma click_row_inv (text : string) (r : Row) (s s' : App) :
  click_row text r s = Some s' -> row_intact r = true /\ run_inline text s = Some s'.
Proof. unfold click_row. destruct (row_intact r); [auto | discriminate]. Qed.

(** A download that settles changes the error indicator, the record of
    downloads and the count of created nodes, and nothing else that is shown. *)
Lemma downloadPaper_resume_frame (o : Settled DownloadData) (s : App) :
  let s' := downloadPaper_resume o s in
  currentKeywords s' = currentKeywords s
  /\ loadingDiv_hidden s' = loadingDiv_hidden s
  /\ resultsDiv_hidden s' = resultsDiv_hidden s
  /\ topPapersDiv_hidden s' = topPapersDiv_hidden s
  /\ papersTable s' = papersTable s
  /\ topPapersDiv s' = topPapersDiv s
  /\ totalPapersSpan_textContent s' = totalPapersSpan_textContent s
  /\ location_href s' = location_href s.
Proof.
  destruct o as [m | [[m | d] | st [m | err]]]; try (repeat split; reflexivity).
  cbv zeta. open_save; repeat split.
Qed.

Lemma searchPapers_cases (s : App) :
  searchPapers s = showError "Please enter keywords"
                     (set_currentKeywords (JS.trim (keywordsInput s)) s)
  \/ searchPapers s
     = fetch_search {| url := apiBase s ++ "/search";
                       keywords := JS.trim (keywordsInput s) |}
         (showLoading (set_currentKeywords (JS.trim (keywordsInput s)) s)).
Proof.
  unfold searchPapers. destruct (JS.truthy (JS.trim (keywordsInput s)));
    [right | left]; reflexivity.
Qed.

Lemma searchPapers_keeps_exclusion (s : App) :
  loading_excludes_results s -> loading_excludes_results (searchPapers s).
Proof.
  intros H. destruct (searchPapers_cases s) as [E | E]; rewrite E.
  - exact H.
  - intros _. split; reflexivity.
Qed.

Lemma run_inline_keeps_exclusion (text : string) (s s' : App) :
  run_inline text s = Some s' ->
  loading_excludes_results s -> loading_excludes_results s'.
Proof.
  unfold run_inline. destruct (compile text) as [[u | n k] | |]; intros E H;
    inversion E; subst; exact H.
Qed.

Lemma handle_keeps_exclusion (e : Event) (s s' : App) :
  handle e s = Some s' ->
  loading_excludes_results s -> loading_excludes_results s'.
Proof.
  destruct e as [v | | key | i o | i | i | i | i o]; cbn [handle]; intros E H.
  - inversion E; subst. exact H.
  - inversion E; subst. now apply searchPapers_keeps_exclusion.
  - inversion E; subst. destruct (String.eqb key "Enter");
      [now apply searchPapers_keeps_exclusion | exact H].
  - destruct (nth_error (searching s) i); [|discriminate].
    inversion E; subst. intros L. now rewrite searchPapers_resume_loading in L.
  - destruct (nth_error (cards_of (topPapersDiv s)) i); [|discriminate].
    inversion E; subst. exact H.
  - destruct (nth_error (papersTable s) i); [|discriminate].
    apply click_row_inv in E as [_ E].
    now apply (run_inline_keeps_exclusion _ _ _ E).
  - destruct (nth_error (papersTable s) i); [|discriminate].
    apply click_row_inv in E as [_ E].
    now apply (run_inline_keeps_exclusion _ _ _ E).
  - destruct (nth_error (downloading s) i); [|discriminate].
    destruct (link_read o s); [|discriminate].
    inversion E; subst. unfold loading_excludes_results.
    match goal with
    | |- context [downloadPaper_resume o ?x] =>
        destruct (downloadPaper_resume_frame o x) as (_ & L & R & T & _)
    end.
    cbv zeta in L, R, T. rewrite L, R, T. exact H.
Qed.

Lemma reachable_exclusion (origin : string) (saved0 : option string) (s : App) :
  reachable origin saved0 s -> loading_excludes_results s.
Proof.
  induction 1 as [| s s' e _ IH He].
  - unfold new_ArxivDownloader, init. destruct saved0 as [k|].
    + destruct (JS.truthy k).
      * apply searchPapers_keeps_exclusion. intros L. discriminate L.
      * intros L. discriminate L.
    + intros L. discriminate L.
  - exact (handle_keeps_exclusion e s s' He IH).
Qed.

(** C5, as stated, fails: after a search has shown its results, a blank submit
    shows the error while the results stay visible. *)
Lemma error_and_results_both_visible :
  exists s,
    reachable Sample.origin None s
    /\ results_visible s = true
    /\ error_visible s = true
    /\ errorDiv_textContent s = "Please enter keywords".
Proof.
  destruct (run (Sample.searched ++ [Edit ""; Click_searchBtn])
                (new_ArxivDownloader Sample.origin None)) as [s|] eqn:E;
    [|vm_compute in E; discriminate E].
  exists s. split.
  - apply (run_reachable _ _ _ _ _ (reachable_new _ _) E).
  - vm_compute in E. inversion E; subst. repeat split.
Qed.

(** C5, amended.  [showLoading] shows the loading indicator and hides the
    results view, the highlight strip and the error.  [showError] sets the
    message and shows the error indicator, and leaves the other indicators and
    the rendered rows and cards as they are.  In every state reached from page
    load through events that the model covers, the loading indicator is never
    visible together with the results view or the highlight strip; the error
    indicator may be visible together with any of them.  The events not covered,
    and only they, are left out: a click on a row whose markup is not whole,
    whose id is no safe integer or whose handler is neither of the two
    statements of the templates nor a text that does not compile, and a
    successful download whose link may lead to another origin.  Script that a
    text of a response starts by itself when it is inserted as markup is not
    followed either. *)
Theorem loading_and_error_indicators (origin : string) (saved0 : option string) (s : App)
    (message : string) :
  (loading_visible (showLoading s) = true
   /\ results_visible (showLoading s) = false
   /\ highlight_visible (showLoading s) = false
   /\ error_visible (showLoading s) = false)
  /\ (error_visible (showError message s) = true
      /\ errorDiv_textContent (showError message s) = message
      /\ loading_visible (showError message s) = loading_visible s
      /\ results_visible (showError message s) = results_visible s
      /\ highlight_visible (showError message s) = highlight_visible s
      /\ papersTable (showError message s) = papersTable s
      /\ topPapersDiv (showError message s) = topPapersDiv s)
  /\ (reachable origin saved0 s ->
      loading_visible s = true ->
      results_visible s = false /\ highlight_visible s = false)
  /\ (forall e, handle e s = None -> impossible e s \/ uncovered e s).
Proof.
  split; [repeat split|]. split; [repeat split|].
  split; [|intros e H; now apply handle_None_iff].
  intros R L. unfold loading_visible, results_visible, highlight_visible in *.
  destruct (reachable_exclusion origin saved0 s R) as [H1 H2].
  - now destruct (loadingDiv_hidden s).
  - now rewrite H1, H2.
Qed.

Lemma loading_and_error_indicators_witness :
  let s := searchPapers (set_keywordsInput "quantum" (page Sample.origin)) in
  reachable Sample.origin (Some "quantum") s
  /\ loading_visible s = true
  /\ results_visible s = false /\ highlight_visible s = false.
Proof.
  intros s.
  assert (R : reachable Sample.origin (Some "quantum") s) by apply reachable_new.
  split; [exact R|]. split; [reflexivity|].
  destruct (loading_and_error_indicators Sample.origin (Some "quantum") s "")
    as (_ & _ & H & _).
  apply H; [exact R | reflexivity].
Defined.

(** ** The keyword context *)

(** C6, as stated, fails.  After a successful search for "quantum", a blank
    submit replaces the stored context by the empty string; and a submit whose
    request is rejected has replaced it by its own input all the same. *)
Lemma context_superseded_without_success :
  exists s blank failed,
    run Sample.searched (new_ArxivDownloader Sample.origin None) = Some s
    /\ currentKeywords s = "quantum"
    /\ run [Edit "   "; Click_searchBtn] s = Some blank
    /\ currentKeywords blank = ""
    /\ run [Edit "graphs"; Click_searchBtn;
            Search_settles 0 (Rejected "Failed to fetch")] s = Some failed
    /\ errorDiv_textContent failed = "Search failed: Failed to fetch"
    /\ currentKeywords failed = "graphs".
Proof.
  do 3 eexists.
  split; [vm_compute; reflexivity|]. split; [reflexivity|].
  split; [vm_compute; reflexivity|]. split; [reflexivity|].
  split; [vm_compute; reflexivity|]. split; reflexivity.
Qed.

Lemma run_inline_context (text : string) (s s' : App) :
  run_inline text s = Some s' -> currentKeywords s' = currentKeywords s.
Proof.
  unfold run_inline. destruct (compile text) as [[u | n k] | |]; intros E;
    inversion E; subst; reflexivity.
Qed.

Lemma searchPapers_context (s : App) :
  currentKeywords (searchPapers s) = JS.trim (keywordsInput s).
Proof. destruct (searchPapers_cases s) as [E | E]; rewrite E; reflexivity. Qed.

(** C6, amended.  Every submit stores the trimmed input as the keyword context,
    before the input is validated and before any request is made: a blank submit
    stores the empty string, and a submit whose request later fails has stored
    its input.  No other event that the model covers changes the stored context;
    in particular the settling of a request, successful or not, leaves it as it
    is.  The events not covered, and only they, are left out: a click on a row
    whose markup is not whole, whose id is no safe integer or whose handler is
    neither of the two statements of the templates nor a text that does not
    compile, and a successful download whose link may lead to another origin.
    Script that a text of a response starts by itself when it is inserted as
    markup is not followed either. *)
Theorem context_follows_every_submit (e : Event) (s s' : App) :
  (handle e s = Some s' ->
   currentKeywords s'
   = if submits e then JS.trim (keywordsInput s) else currentKeywords s)
  /\ (handle e s = None -> impossible e s \/ uncovered e s).
Proof.
  split; [|intros H; now apply handle_None_iff].
  destruct e as [v | | key | i o | i | i | i | i o]; cbn [handle submits]; intros E.
  - inversion E; subst. reflexivity.
  - inversion E; subst. apply searchPapers_context.
  - inversion E; subst. destruct (String.eqb key "Enter");
      [apply searchPapers_context | reflexivity].
  - destruct (nth_error (searching s) i); [|discriminate].
    inversion E; subst. now rewrite searchPapers_resume_context.
  - destruct (nth_error (cards_of (topPapersDiv s)) i); [|discriminate].
    inversion E; subst. reflexivity.
  - destruct (nth_error (papersTable s) i); [|discriminate].
    apply click_row_inv in E as [_ E].
    apply (run_inline_context _ _ _ E).
  - destruct (nth_error (papersTable s) i); [|discriminate].
    apply click_row_inv in E as [_ E].
    apply (run_inline_context _ _ _ E).
  - destruct (nth_error (downloading s) i); [|discriminate].
    destruct (link_read o s); [|discriminate].
    inversion E; subst.
    match goal with
    | |- context [downloadPaper_resume o ?x] =>
        destruct (downloadPaper_resume_frame o x) as (K & _)
    end.
    cbv zeta in K. rewrite K. reflexivity.
Qed.

Lemma context_follows_every_submit_witness :
  let s := set_keywordsInput "  " (set_currentKeywords "quantum" (page Sample.origin)) in
  handle Click_searchBtn s = Some (searchPapers s)
  /\ currentKeywords (searchPapers s) = "".
Proof.
  intros s. split; [reflexivity|].
  apply (context_follows_every_submit Click_searchBtn s (searchPapers s)).
  reflexivity.
Defined.

(** ** Downloads *)

Lemma failed_has_message {A} (fallback : Z -> string) (o : Settled A) :
  succeeded o = false -> exists m, error_message fallback o = Some m.
Proof.
  destruct o as [m | [[m | d] | st [m | err]]]; simpl; intros H;
    try discriminate; eexists; reflexivity.
Qed.

(** C9.  When a download fails (the fetch rejects, the body does not parse, or
    the status is not ok) the error indicator shows "Download failed: "
    followed by the detail of the response, or by the message of the error
    when there is no detail; the results view, the highlight strip, the table
    rows, the cards and the total stay as they were. *)
Theorem download_failure_keeps_results (s : App) (i : nat) (r : Request)
    (o : Settled DownloadData) :
  nth_error (downloading s) i = Some r ->
  succeeded o = false ->
  exists s' m,
    handle (Download_settles i o) s = Some s'
    /\ error_message (fun _ => "Download failed") o = Some m
    /\ errorDiv_textContent s' = "Download failed: " ++ m
    /\ error_visible s' = true
    /\ results_visible s' = results_visible s
    /\ highlight_visible s' = highlight_visible s
    /\ loading_visible s' = loading_visible s
    /\ papersTable s' = papersTable s
    /\ topPapersDiv s' = topPapersDiv s
    /\ totalPapersSpan_textContent s' = totalPapersSpan_textContent s
    /\ body s' = body s
    /\ saved s' = saved s.
Proof.
  intros Hi Hf.
  destruct (failed_has_message (fun _ => "Download failed") o Hf) as [m Hm].
  assert (L : link_read o s = true).
  { destruct o as [e | [[e | d] | st [e | err]]]; try reflexivity. discriminate Hf. }
  eexists. exists m. split; [cbn [handle]; rewrite Hi, L; reflexivity|].
  split; [exact Hm|].
  destruct o as [e | [[e | d] | st [e | err]]]; simpl in Hm, Hf; try discriminate;
    inversion Hm; subst; repeat split.
Qed.

(** The scenario of C9: status 404 with detail "not found". *)
Lemma download_failure_keeps_results_witness :
  let s := downloadPaper 7 "quantum" (displayResults Sample.quantum (page Sample.origin)) in
  exists s',
    handle (Download_settles 0
              (Resolved (NotOk 404 (Parsed {| detail := Some "not found" |})))) s
    = Some s'
    /\ errorDiv_textContent s' = "Download failed: not found"
    /\ results_visible s' = true
    /\ papersTable s' = papersTable s.
Proof.
  intros s.
  destruct (download_failure_keeps_results s 0
              {| url := Sample.origin ++ "/download/7"; keywords := "quantum" |}
              (Resolved (NotOk 404 (Parsed {| detail := Some "not found" |}))))
    as (s' & m & H1 & H2 & H3 & _ & H4 & _ & _ & H5 & _); [reflexivity | reflexivity |].
  exists s'. inversion H2; subst m.
  split; [exact H1|]. split; [exact H3|]. split; [rewrite H4; reflexivity | exact H5].
Defined.

Lemma filter_other_nodes (n : nat) (l : list Anchor) :
  Forall (fun a => (node a < n)%nat) l ->
  filter (fun b => negb (node b =? n)%nat) l = l.
Proof.
  induction 1 as [|a l Ha _ IH]; simpl; [reflexivity|].
  destruct (Nat.eqb_spec (node a) n) as [E | _]; [lia|].
  simpl. now rewrite IH.
Qed.

Lemma save_body (d : DownloadData) (s : App) :
  nodes_known s -> body (save d s) = body s.
Proof.
  intros H. unfold save, createElement_a, removeChild, click, appendChild.
  cbn -[target filter app].
  assert (F : filter (fun b => negb (node b =? created s)%nat)
                     (body s ++ [{| node := created s; href := apiBase s ++ path d;
                                    download := filename d |}])%list
              = body s).
  { rewrite filter_app, (filter_other_nodes _ _ H). simpl.
    rewrite Nat.eqb_refl. simpl. apply app_nil_r. }
  destruct (target (apiBase s) (apiBase s ++ path d)); exact F.
Qed.

Lemma download_body (s : App) (i : nat) (o : Settled DownloadData) :
  nodes_known s ->
  body (downloadPaper_resume o (set_downloading (remove_nth i (downloading s)) s))
  = body s
  /\ location_href
       (downloadPaper_resume o (set_downloading (remove_nth i (downloading s)) s))
     = location_href s.
Proof.
  intros K.
  set (s0 := set_downloading (remove_nth i (downloading s)) s).
  assert (K0 : nodes_known s0) by exact K.
  destruct o as [e | [[e | d] | st [e | err]]]; try (split; reflexivity).
  split.
  - unfold downloadPaper_resume, try_catch, try_catch_finally, bind, await_fetch, json, lift.
    apply (save_body d s0 K0).
  - apply (downloadPaper_resume_frame (Resolved (Ok (Parsed d))) s0).
Qed.







(** Between two events the document holds no link of a download. *)
Lemma handle_keeps_body (e : Event) (s s' : App) :
  handle e s = Some s' -> body s = [] -> body s' = [].
Proof.
  intros E B.
  assert (Hsp : body (searchPapers s) = []).
  { destruct (searchPapers_cases s) as [X | X]; rewrite X; exact B. }
  assert (Hin : forall text, run_inline text s = Some s' -> body s' = []).
  { intros text. unfold run_inline.
    destruct (compile text) as [[u | n k] | |]; intros X; inversion X; subst; exact B. }
  destruct e as [v | | key | i o | i | i | i | i o]; cbn [handle] in E.
  - inversion E; subst. exact B.
  - inversion E; subst. exact Hsp.
  - inversion E; subst. destruct (String.eqb key "Enter"); [exact Hsp | exact B].
  - destruct (nth_error (searching s) i); [|discriminate].
    inversion E; subst.
    unfold searchPapers_resume, try_catch_finally, bind, await_fetch, json, throw, lift.
    destruct o as [m | [[m | d] | st [m | err]]]; try exact B.
    cbn [hideLoading set_loadingDiv_hidden body].
    match goal with
    | |- body (displayResults d ?x) = _ =>
        destruct (displayResults_frame d x) as (_ & _ & _ & _ & _ & _ & X & _)
    end.
    cbv zeta in X. rewrite X. exact B.
  - destruct (nth_error (cards_of (topPapersDiv s)) i); [|discriminate].
    inversion E; subst. exact B.
  - destruct (nth_error (papersTable s) i); [|discriminate].
    apply click_row_inv in E as [_ E]. now apply (Hin _ E).
  - destruct (nth_error (papersTable s) i); [|discriminate].
    apply click_row_inv in E as [_ E]. now apply (Hin _ E).
  - destruct (nth_error (downloading s) i) as [r|] eqn:Hi; [|discriminate].
    destruct (link_read o s); [|discriminate].
    assert (K : nodes_known s) by (unfold nodes_known; rewrite B; constructor).
    destruct (download_body s i o K) as [X _]. inversion E; subst.
    rewrite X. exact B.
Qed.

(** X5.  In every state reached from page load through events that the model
    covers, the document holds no link of a download: each link is removed
    within the event that appended it.  The events not covered, and only they,
    are left out: a click on a row whose markup is not whole, whose id is no
    safe integer or whose handler is neither of the two statements of the
    templates nor a text that does not compile, and a successful download whose
    link may lead to another origin.  Script that a text of a response starts by
    itself when it is inserted as markup is not followed either. *)
Lemma reachable_nodes_known (origin : string) (saved0 : option string) (s : App) :
  (reachable origin saved0 s -> body s = [] /\ nodes_known s)
  /\ (forall e, handle e s = None -> impossible e s \/ uncovered e s).
Proof.
  split; [|intros e H; now apply handle_None_iff].
  intros R. assert (B : body s = []).
  { induction R as [| s s' e _ IH He].
    - unfold new_ArxivDownloader, init. destruct saved0 as [k|]; [|reflexivity].
      destruct (JS.truthy k); [|reflexivity].
      match goal with
      | |- body (searchPapers ?x) = _ =>
          destruct (searchPapers_cases x) as [X | X]; rewrite X; reflexivity
      end.
    - exact (handle_keeps_body e s s' He IH). }
  split; [exact B|]. unfold nodes_known. rewrite B. constructor.
Qed.

(** ** Texts of a card and of a row *)

Lemma substring_whole (s : string) : s = String.substring 0 (String.length s) s.
Proof. induction s as [|c r IH]; simpl; congruence. Qed.

Lemma substring_split (s : string) (n : nat) :
  (n <= String.length s)%nat ->
  s = String.substring 0 n s ++ String.substring n (String.length s - n) s.
Proof.
  revert n. induction s as [|c r IH]; intros [|n] H; simpl in *.
  - reflexivity.
  - lia.
  - f_equal. apply substring_whole.
  - f_equal. apply IH. lia.
Qed.

Lemma substring_length (s : string) (n m : nat) :
  (n + m <= String.length s)%nat -> String.length (String.substring n m s) = m.
Proof.
  revert n m. induction s as [|c r IH]; intros [|n] [|m] H; simpl in *; try lia.
  - rewrite (IH 0%nat m); lia.
  - apply (IH n 0%nat). lia.
  - apply (IH n (S m)). lia.
Qed.

Lemma substring_all_digits (s : string) (n m : nat) :
  JS.all_digits s = true -> JS.all_digits (String.substring n m s) = true.
Proof.
  unfold JS.all_digits.
  revert n m. induction s as [|c r IH]; intros [|n] [|m]; simpl; intros H;
    try reflexivity; apply andb_true_iff in H as [Hc Hr].
  - rewrite Hc. apply (IH 0%nat m Hr).
  - apply (IH n 0%nat Hr).
  - apply (IH n (S m) Hr).
Qed.

Lemma append_length (a b : string) :
  String.length (a ++ b) = (String.length a + String.length b)%nat.
Proof. induction a as [|c a IH]; simpl; congruence. Qed.

Lemma append_all_digits (a b : string) :
  JS.all_digits a = true -> JS.all_digits b = true -> JS.all_digits (a ++ b) = true.
Proof.
  unfold JS.all_digits. induction a as [|c a IH]; simpl; intros Ha Hb; [exact Hb|].
  apply andb_true_iff in Ha as [Hc Ha]. rewrite Hc. now apply IH.
Qed.

Lemma zeros_length (n : nat) : String.length (JS.zeros n) = n.
Proof. induction n; simpl; congruence. Qed.

Lemma zeros_all_digits (n : nat) : JS.all_digits (JS.zeros n) = true.
Proof. induction n; simpl; [reflexivity | assumption]. Qed.

Lemma string_of_uint_all_digits (d : Decimal.uint) :
  JS.all_digits (NilEmpty.string_of_uint d) = true.
Proof. induction d; simpl; try reflexivity; assumption. Qed.

Lemma digits_all_digits (n : Z) : JS.all_digits (JS.digits n) = true.
Proof.
  unfold JS.digits, NilZero.string_of_uint.
  destruct (N.to_uint (Z.to_N n)) eqn:E; try reflexivity;
    rewrite <- E; apply string_of_uint_all_digits.
Qed.

Lemma digits_nonempty (n : Z) : (1 <= String.length (JS.digits n))%nat.
Proof.
  unfold JS.digits, NilZero.string_of_uint.
  destruct (N.to_uint (Z.to_N n)); simpl; lia.
Qed.

Lemma fixed_unsigned_point (f : nat) (a b : string) (seen : bool) :
  JS.all_digits a = true ->
  (seen = true \/ 1 <= String.length a)%nat ->
  JS.all_digits b = true ->
  String.length b = f ->
  JS.fixed_unsigned f seen (a ++ "." ++ b) = true.
Proof.
  unfold JS.all_digits.
  revert seen. induction a as [|c a IH]; simpl; intros seen Ha Hs Hb Hl.
  - destruct Hs as [-> | Hs]; [|lia].
    unfold JS.all_digits. rewrite Hb, Hl, Nat.eqb_refl. reflexivity.
  - apply andb_true_iff in Ha as [Hc Ha]. rewrite Hc.
    apply IH; auto.
Qed.

(** In its fixed branch [toFixed] puts exactly [f] digits after the point. *)
Lemma place_point_fixed (f : nat) (n : Z) :
  (1 <= f)%nat -> JS.fixed_unsigned f false (JS.place_point f n) = true.
Proof.
  intros Hf. unfold JS.place_point.
  set (m := if (String.length (JS.digits n) <=? f)%nat
            then JS.zeros (f + 1 - String.length (JS.digits n)) ++ JS.digits n
            else JS.digits n).
  assert (Hd : JS.all_digits m = true).
  { unfold m. destruct (String.length (JS.digits n) <=? f)%nat.
    - apply append_all_digits; [apply zeros_all_digits | apply digits_all_digits].
    - apply digits_all_digits. }
  assert (Hl : (f + 1 <= String.length m)%nat).
  { unfold m. destruct (Nat.leb_spec (String.length (JS.digits n)) f).
    - rewrite append_length, zeros_length. lia.
    - lia. }
  destruct (Nat.eqb_spec f 0); [lia|].
  apply fixed_unsigned_point.
  - now apply substring_all_digits.
  - right. rewrite substring_length; lia.
  - now apply substring_all_digits.
  - apply substring_length. lia.
Qed.

Lemma fixed_unsigned_notation (f : nat) (x : string) :
  JS.fixed_unsigned f false x = true -> JS.fixed_notation f x = true.
Proof.
  destruct x as [|c r]; simpl; [discriminate|].
  destruct (Ascii.eqb_spec c "-") as [-> | _]; [|auto].
  simpl. discriminate.
Qed.

Lemma toFixed_fixed (f : nat) (m e : Z) :
  (1 <= f)%nat ->
  JS.at_least_1e21 (Z.abs m) e = false ->
  JS.fixed_notation f (JS.toFixed f (JS.Finite m e)) = true.
Proof.
  intros Hf H. unfold JS.toFixed. rewrite H.
  destruct (m <? 0).
  - change (JS.fixed_unsigned f false
              (JS.place_point f (JS.round_scaled f (Z.abs m) e)) = true).
    now apply place_point_fixed.
  - apply fixed_unsigned_notation. now apply place_point_fixed.
Qed.

Lemma authors_text_law (authors : list string) :
  match authors with
  | a :: b :: _ :: _ => authors_text authors = a ++ ", " ++ b ++ " et al."
  | [a; b] => authors_text authors = a ++ ", " ++ b
  | [a] => authors_text authors = a
  | [] => authors_text authors = ""
  end.
Proof.
  assert (E : forall a : string, a ++ "" = a).
  { induction a as [|c a IH]; simpl; congruence. }
  destruct authors as [|a [|b [|c rest]]]; unfold authors_text; cbn -[Z.of_nat Z.ltb append].
  - reflexivity.
  - apply E.
  - cbn. rewrite E. reflexivity.
  - replace (2 <? Z.of_nat (S (S (S (List.length rest))))) with true
      by (symmetry; apply Z.ltb_lt; lia).
    cbn. clear. induction a as [|x a IH]; simpl; [|congruence].
    induction b as [|y b IH]; simpl; congruence.
Qed.

(** C7, as stated, fails on the score: from [10^21] on, [toFixed] answers in
    exponent notation, without decimals. *)
Lemma huge_score_has_no_decimals :
  card_score (createTopPaperCard Sample.paper_huge (page Sample.origin)) = "1e+21"
  /\ JS.fixed_notation 3
       (card_score (createTopPaperCard Sample.paper_huge (page Sample.origin))) = false.
Proof. split; vm_compute; reflexivity. Qed.

(** C7, amended.  On a card the title is shown whole when it has at most 80
    characters, and otherwise as its first 80 characters followed by "...".
    The author text, the same on the card and in the row, is the first two
    authors joined by ", ", followed by " et al." exactly when there are more
    than two authors.  The score has exactly 3 decimals when it is a finite
    number of magnitude below [10^21]. *)
Theorem card_texts (paper : Paper.t) (s : App) :
  let c := createTopPaperCard paper s in
  let t := Paper.title paper in
  ((String.length t <= 80)%nat -> card_title c = t)
  /\ ((80 < String.length t)%nat ->
      exists head rest,
        t = head ++ rest /\ String.length head = 80%nat
        /\ card_title c = head ++ "...")
  /\ card_authors c = row_authors (createPaperRow paper s)
  /\ match Paper.authors paper with
     | a :: b :: _ :: _ => card_authors c = a ++ ", " ++ b ++ " et al."
     | [a; b] => card_authors c = a ++ ", " ++ b
     | [a] => card_authors c = a
     | [] => card_authors c = ""
     end
  /\ (forall m e, Paper.relevance_score paper = JS.Finite m e ->
                  JS.at_least_1e21 (Z.abs m) e = false ->
                  JS.fixed_notation 3 (card_score c) = true).
Proof.
  cbv zeta. cbn [createTopPaperCard card_title card_authors card_score
                 createPaperRow row_authors].
  unfold JS.length, JS.substring0.
  split; [|split; [|split; [|split]]].
  - intros H. destruct (Z.ltb_spec 80 (Z.of_nat (String.length (Paper.title paper))));
      [lia | reflexivity].
  - intros H. destruct (Z.ltb_spec 80 (Z.of_nat (String.length (Paper.title paper))));
      [|lia].
    exists (String.substring 0 80 (Paper.title paper)),
           (String.substring 80 (String.length (Paper.title paper) - 80)
                             (Paper.title paper)).
    split; [apply substring_split; lia|].
    split; [apply substring_length; lia | reflexivity].
  - reflexivity.
  - apply authors_text_law.
  - intros m e -> H. apply toFixed_fixed; [lia | exact H].
Qed.

Lemma card_texts_witness :
  let c := createTopPaperCard Sample.paper7 (page Sample.origin) in
  card_title c = "Quantum error correction below threshold"
  /\ card_authors c = "A, B et al."
  /\ row_authors (createPaperRow Sample.paper8 (page Sample.origin)) = "A, B"
  /\ JS.fixed_notation 3 (card_score c) = true.
Proof.
  intros c.
  destruct (card_texts Sample.paper7 (page Sample.origin)) as (H1 & _ & _ & H4 & H5).
  split; [apply H1; vm_compute; lia|].
  split; [exact H4|]. split; [reflexivity|].
  apply (H5 7 (-3)); reflexivity.
Defined.

(** ** Links of a row and of a card *)

Lemma occurs_app (b : ascii) (x y : string) :
  occurs b (x ++ y) = occurs b x || occurs b y.
Proof.
  unfold occurs. induction x as [|c x IH]; simpl; [reflexivity|].
  now rewrite IH, orb_assoc.
Qed.

Lemma occurs_among (good s : string) (b : ascii) :
  forallb (fun c => occurs c good) (list_ascii_of_string s) = true ->
  occurs b good = false ->
  occurs b s = false.
Proof.
  intros Hs Hb. unfold occurs at 1.
  induction s as [|c s IH]; simpl in *; [reflexivity|].
  apply andb_true_iff in Hs as [Hc Hs]. rewrite (IH Hs), orb_false_r.
  destruct (Ascii.eqb_spec b c) as [-> | _]; [congruence | reflexivity].
Qed.

Lemma string_of_uint_chars (d : Decimal.uint) :
  forallb (fun c => occurs c "-0123456789")
          (list_ascii_of_string (NilEmpty.string_of_uint d)) = true.
Proof. induction d; simpl; try reflexivity; assumption. Qed.

Lemma of_int_chars (z : Z) :
  forallb (fun c => occurs c "-0123456789") (list_ascii_of_string (JS.of_int z)) = true.
Proof.
  unfold JS.of_int, NilZero.string_of_int, NilZero.string_of_uint.
  destruct (Z.to_int z) as [d | d]; destruct d; try reflexivity;
    apply (string_of_uint_chars (_ _)) || (simpl; apply (string_of_uint_chars _)).
Qed.

Lemma hex_digit_among (k : N) : occurs (JS.hex_digit k) "%0123456789ABCDEF" = true.
Proof.
  unfold JS.hex_digit. generalize (N.to_nat k). intros n.
  do 17 (destruct n as [|n]; [reflexivity|]). reflexivity.
Qed.

Lemma percent_chars (k : N) :
  forallb (fun c => occurs c "%0123456789ABCDEF")
          (list_ascii_of_string (JS.percent k)) = true.
Proof.
  unfold JS.percent. cbn [list_ascii_of_string forallb].
  rewrite !hex_digit_among. reflexivity.
Qed.

(** A character that [encodeURIComponent] would escape, and that is neither
    the percent sign nor a hexadecimal digit, does not occur in its output;
    one that it keeps occurs in the output only if it occurs in the input. *)
Lemma encodeURIComponent_avoids (b : ascii) (s : string) :
  occurs b "%0123456789ABCDEF" = false ->
  JS.is_uri_unreserved b = false \/ occurs b s = false ->
  occurs b (JS.encodeURIComponent s) = false.
Proof.
  intros Hhex H. induction s as [|c s IH]; simpl; [reflexivity|].
  rewrite occurs_app.
  assert (Hs : JS.is_uri_unreserved b = false \/ occurs b s = false).
  { destruct H as [H | H]; [now left | right].
    unfold occurs in *. simpl in H. now apply orb_false_iff in H. }
  rewrite (IH Hs), orb_false_r.
  unfold JS.encode_unit. destruct (JS.is_uri_unreserved c) eqn:Hc.
  - unfold occurs. simpl. rewrite orb_false_r.
    destruct (Ascii.eqb_spec b c) as [-> | _]; [|reflexivity].
    destruct H as [H | H]; [congruence|].
    unfold occurs in H. simpl in H. now rewrite Ascii.eqb_refl in H.
  - destruct (N_of_ascii c <? 128)%N.
    + apply (occurs_among _ _ _ (percent_chars _) Hhex).
    + rewrite occurs_app.
      now rewrite !(occurs_among _ _ _ (percent_chars _) Hhex).
Qed.

Lemma read_literal_closed (v rest : string) :
  occurs "'" v = false -> occurs "\" v = false ->
  occurs "010" v = false -> occurs "013" v = false ->
  read_literal (v ++ String "'" rest) = Closed v rest.
Proof.
  unfold occurs. induction v as [|c v IH]; cbn -[Ascii.eqb]; [reflexivity|].
  intros H1 H2 H3 H4.
  apply orb_false_iff in H1 as [H1 H1'], H2 as [H2 H2'],
                         H3 as [H3 H3'], H4 as [H4 H4'].
  unfold is_line_terminator.
  rewrite (Ascii.eqb_sym c "'"), H1, (Ascii.eqb_sym c "\"), H2,
          (Ascii.eqb_sym c "010"), H3, (Ascii.eqb_sym c "013"), H4.
  cbn -[Ascii.eqb]. now rewrite IH.
Qed.

Lemma until_comma_stops (n r : string) :
  occurs "," n = false -> until_comma (n ++ String "," r) = (n, String "," r).
Proof.
  unfold occurs. induction n as [|c n IH]; cbn -[Ascii.eqb]; [reflexivity|].
  intros H. apply orb_false_iff in H as [Hc Hn].
  rewrite (Ascii.eqb_sym c ","), Hc. now rewrite IH.
Qed.

Lemma of_int_read_back (z : Z) :
  option_map Z.of_int (NilZero.int_of_string (JS.of_int z)) = Some z.
Proof.
  unfold JS.of_int. rewrite NilZero.isi.
  - simpl. f_equal. apply DecimalZ.of_to.
  - destruct z; simpl; try discriminate.
    intros H. injection H. apply DecimalPos.Unsigned.to_uint_nonnil.
  - destruct z; simpl; try discriminate.
    intros H. injection H. apply DecimalPos.Unsigned.to_uint_nonnil.
Qed.

Lemma safe_digits_of_int (z : Z) :
  safe_integer z = true -> safe_digits (JS.of_int z) = true.
Proof.
  intros H. unfold safe_digits. pose proof (of_int_read_back z) as Hi.
  destruct (NilZero.int_of_string (JS.of_int z)) as [i|]; [|discriminate Hi].
  simpl in Hi. injection Hi as ->. now rewrite H, String.eqb_refl.
Qed.

Lemma append_assoc (a b c : string) : (a ++ b) ++ c = a ++ b ++ c.
Proof. induction a as [|x a IH]; simpl; congruence. Qed.

(** An assignment whose literal holds nothing that ends or escapes it is read
    as that assignment. *)
Lemma compile_assign (v : string) :
  occurs "&" v = false -> occurs double_quote v = false ->
  occurs "'" v = false -> occurs "\" v = false ->
  occurs "010" v = false -> occurs "013" v = false ->
  occurs "000" v = false ->
  compile ("window.location.href='" ++ v ++ "'") = Statement (Assign_href v).
Proof.
  intros Ha Hq H1 H2 H3 H4 H0. unfold compile.
  replace (occurs "&" ("window.location.href='" ++ v ++ "'")) with false
    by (rewrite !occurs_app, Ha; reflexivity).
  replace (occurs "000" ("window.location.href='" ++ v ++ "'")) with false
    by (rewrite !occurs_app, H0; reflexivity).
  replace (occurs double_quote ("window.location.href='" ++ v ++ "'")) with false
    by (rewrite !occurs_app, Hq; reflexivity).
  cbn [orb]. cbv zeta.
  change (strip_prefix "window.location.href='" ("window.location.href='" ++ v ++ "'"))
    with (Some (v ++ String "'" "")).
  unfold literal_then. rewrite read_literal_closed by assumption. reflexivity.
Qed.

Lemma compile_call (z : Z) (k : string) :
  safe_integer z = true ->
  plain_text k = true ->
  compile ("downloader.downloadPaper(" ++ JS.of_int z ++ ", '" ++ k ++ "')")
  = Statement (Call_downloadPaper z k).
Proof.
  unfold plain_text. intros Hsafe H.
  repeat (apply andb_true_iff in H as [H ?]).
  repeat match goal with
         | X : negb _ = true |- _ => apply negb_true_iff in X
         end.
  assert (Hz : forall b, occurs b "-0123456789" = false -> occurs b (JS.of_int z) = false).
  { intros b. apply occurs_among, of_int_chars. }
  unfold compile.
  replace (occurs "&" ("downloader.downloadPaper(" ++ JS.of_int z ++ ", '" ++ k ++ "')"))
    with false
    by (rewrite !occurs_app, (Hz "&"%char eq_refl); symmetry;
        repeat (apply orb_false_iff; split); try reflexivity; assumption).
  replace (occurs "000" ("downloader.downloadPaper(" ++ JS.of_int z ++ ", '" ++ k ++ "')"))
    with false
    by (rewrite !occurs_app, (Hz "000"%char eq_refl); symmetry;
        repeat (apply orb_false_iff; split); try reflexivity; assumption).
  replace (occurs double_quote
             ("downloader.downloadPaper(" ++ JS.of_int z ++ ", '" ++ k ++ "')"))
    with false
    by (rewrite !occurs_app, (Hz double_quote eq_refl); symmetry;
        repeat (apply orb_false_iff; split); try reflexivity; assumption).
  cbn [orb]. cbv zeta.
  change (strip_prefix "window.location.href='"
            ("downloader.downloadPaper(" ++ JS.of_int z ++ ", '" ++ k ++ "')"))
    with (@None string).
  change (strip_prefix "downloader.downloadPaper("
            ("downloader.downloadPaper(" ++ JS.of_int z ++ ", '" ++ k ++ "')"))
    with (Some (JS.of_int z ++ String "," (" '" ++ k ++ "')"))).
  cbv iota beta.
  rewrite until_comma_stops by (apply Hz; reflexivity).
  rewrite (safe_digits_of_int z Hsafe).
  pose proof (of_int_read_back z) as Hi.
  destruct (NilZero.int_of_string (JS.of_int z)) as [i|]; [|discriminate Hi].
  simpl in Hi. injection Hi as ->.
  change (strip_prefix ", '" (String "," (" '" ++ k ++ "')")))
    with (Some (k ++ String "'" ")")).
  unfold literal_then. rewrite read_literal_closed by assumption. reflexivity.
Qed.

(** With no apostrophe in the stored context, a row's title leads where the
    card of the same paper leads. *)
Lemma row_title_navigates (paper : Paper.t) (s : App) :
  occurs "'" (currentKeywords s) = false ->
  compile (row_title_onclick (createPaperRow paper s))
  = Statement (Assign_href (card_onclick (createTopPaperCard paper s))).
Proof.
  intros H. cbn [createPaperRow row_title_onclick createTopPaperCard card_onclick].
  set (v := "/paper/" ++ JS.of_int (Paper.id paper) ++ "?keywords="
            ++ JS.encodeURIComponent (currentKeywords s)).
  replace ("window.location.href='/paper/" ++ JS.of_int (Paper.id paper)
           ++ "?keywords=" ++ JS.encodeURIComponent (currentKeywords s) ++ "'")
    with ("window.location.href='" ++ v ++ "'")
    by (unfold v; rewrite !append_assoc; reflexivity).
  assert (Hv : forall b, occurs b "-0123456789" = false ->
                         occurs b "%0123456789ABCDEF" = false ->
                         occurs b "/paper/?keywords=" = false ->
                         JS.is_uri_unreserved b = false
                         \/ occurs b (currentKeywords s) = false ->
                         occurs b v = false).
  { intros b Hd Hx Hl Hb. unfold v. rewrite !occurs_app.
    rewrite (occurs_among _ _ _ (of_int_chars _) Hd).
    rewrite (encodeURIComponent_avoids b _ Hx Hb).
    unfold occurs in *. cbn -[Ascii.eqb] in *.
    repeat (apply orb_false_iff in Hl as [? Hl]).
    repeat (apply orb_false_iff; split); assumption. }
  apply compile_assign; apply Hv; try reflexivity; (now left) || (now right).
Qed.

(** With a safe integer for id and plain keywords, a row's download action
    carries the stored context. *)
Lemma row_download_carries_context (paper : Paper.t) (s : App) :
  safe_integer (Paper.id paper) = true ->
  plain_text (currentKeywords s) = true ->
  compile (row_download_onclick (createPaperRow paper s))
  = Statement (Call_downloadPaper (Paper.id paper) (currentKeywords s)).
Proof. intros Z H. now apply compile_call. Qed.

(** A call that is read has a safe integer for its first argument. *)
Lemma compile_call_safe (text : string) (n : Z) (k : string) :
  compile text = Statement (Call_downloadPaper n k) -> safe_integer n = true.
Proof.
  unfold compile.
  destruct (occurs "&" text || occurs "000" text || occurs double_quote text);
    [discriminate|].
  cbv zeta.
  destruct (strip_prefix "window.location.href='" text) as [r|].
  - unfold literal_then. destruct (read_literal r) as [v rest | |]; try discriminate.
    destruct (String.eqb rest ""); [discriminate|].
    destruct (leaves_literal_open rest); discriminate.
  - destruct (strip_prefix "downloader.downloadPaper(" text) as [r|];
      [|discriminate].
    destruct (until_comma r) as [m r'].
    destruct (NilZero.int_of_string m) as [i|] eqn:E; [|discriminate].
    destruct (strip_prefix ", '" r') as [r''|]; [|discriminate].
    destruct (safe_digits m) eqn:S; [|discriminate].
    unfold safe_digits in S. rewrite E in S. apply andb_true_iff in S as [S _].
    unfold literal_then. destruct (read_literal r'') as [v rest | |]; try discriminate.
    destruct (String.eqb rest ")").
    + intros H. injection H as <- _. exact S.
    + destruct (leaves_literal_open rest); discriminate.
Qed.

(** X2.  What is rendered is fixed when it is rendered: among the events that
    the model covers, only a search response replaces the rows and the cards;
    editing the field, submitting, a click on a card, a click on a row whose
    handler is one of the two statements of the templates or does not compile,
    and a download that settles leave them as they are.  The events not covered,
    and only they, are left out: a click on a row whose markup is not whole,
    whose id is no safe integer or whose handler is some other text, and a
    successful download whose link may lead to another origin.  Script that a
    text of a response starts by itself when it is inserted as markup is not
    followed either. *)
Lemma rendered_links_are_kept (e : Event) (s s' : App) :
  (handle e s = Some s' ->
   (forall i o, e <> Search_settles i o) ->
   papersTable s' = papersTable s /\ topPapersDiv s' = topPapersDiv s)
  /\ (handle e s = None -> impossible e s \/ uncovered e s).
Proof.
  split; [|intros H; now apply handle_None_iff].
  intros E Hne.
  assert (Hsp : papersTable (searchPapers s) = papersTable s
                /\ topPapersDiv (searchPapers s) = topPapersDiv s).
  { destruct (searchPapers_cases s) as [X | X]; rewrite X; split; reflexivity. }
  assert (Hin : forall text, run_inline text s = Some s' ->
                  papersTable s' = papersTable s /\ topPapersDiv s' = topPapersDiv s).
  { intros text. unfold run_inline.
    destruct (compile text) as [[u | n k] | |]; intros X; inversion X; subst;
      split; reflexivity. }
  destruct e as [v | | key | i o | i | i | i | i o]; cbn [handle] in E.
  - inversion E; subst. split; reflexivity.
  - inversion E; subst. exact Hsp.
  - inversion E; subst. destruct (String.eqb key "Enter"); [exact Hsp | split; reflexivity].
  - exfalso. apply (Hne i o eq_refl).
  - destruct (nth_error (cards_of (topPapersDiv s)) i); [|discriminate].
    inversion E; subst. split; reflexivity.
  - destruct (nth_error (papersTable s) i); [|discriminate].
    apply click_row_inv in E as [_ E]. now apply (Hin _ E).
  - destruct (nth_error (papersTable s) i); [|discriminate].
    apply click_row_inv in E as [_ E]. now apply (Hin _ E).
  - destruct (nth_error (downloading s) i); [|discriminate].
    destruct (link_read o s); [|discriminate].
    inversion E; subst.
    match goal with
    | |- context [downloadPaper_resume o ?x] =>
        destruct (downloadPaper_resume_frame o x) as (_ & _ & _ & _ & T & C & _)
    end.
    cbv zeta in T, C. rewrite T, C. split; reflexivity.
Qed.

(** C4 fails in the table when the keywords hold an apostrophe.  After a
    search for "it's" the card of paper 7 leads to [/paper/7?keywords=it's];
    the title of its row is given the same target between single quotes, the
    apostrophe closes the literal early, the text does not compile and a click
    on the title leaves the location as it is.  The download action of the row
    is broken in the same way and a click on it sends no request. *)
Theorem apostrophe_breaks_row_links :
  exists s,
    run Sample.apostrophe (new_ArxivDownloader Sample.origin None) = Some s
    /\ currentKeywords s = "it's"
    /\ map row_title_onclick (papersTable s)
       = ["window.location.href='/paper/7?keywords=it's'";
          "window.location.href='/paper/8?keywords=it's'"]
    /\ map row_download_onclick (papersTable s)
       = ["downloader.downloadPaper(7, 'it's')"; "downloader.downloadPaper(8, 'it's')"]
    /\ map compile (map row_title_onclick (papersTable s)) = [SyntaxError; SyntaxError]
    /\ map compile (map row_download_onclick (papersTable s)) = [SyntaxError; SyntaxError]
    /\ handle (Click_title 0) s = Some s
    /\ handle (Click_download 0) s = Some s
    /\ option_map location_href (handle (Click_card 0) s) = Some "/paper/7?keywords=it's".
Proof.
  eexists. split; [vm_compute; reflexivity|].
  repeat split; vm_compute; reflexivity.
Qed.

(** * Further properties *)

(** ** Trimming twice *)

Lemma trimEnd_idempotent (s : string) : JS.trimEnd (JS.trimEnd s) = JS.trimEnd s.
Proof.
  induction s as [|c r IH]; [reflexivity|].
  cbn [JS.trimEnd]. destruct (JS.trimEnd r) as [|d r'] eqn:E.
  - destruct (JS.is_white_space c) eqn:Hc; [reflexivity|].
    cbn [JS.trimEnd]. now rewrite Hc.
  - cbn [JS.trimEnd] in *. now rewrite IH.
Qed.

Lemma trimStart_led (s : string) :
  match JS.trimStart s with
  | EmptyString => True
  | String c _ => JS.is_white_space c = false
  end.
Proof.
  induction s as [|c r IH]; simpl; [exact I|].
  destruct (JS.is_white_space c) eqn:Hc; [exact IH | exact Hc].
Qed.

Lemma trimEnd_keeps_head (c : ascii) (r : string) :
  JS.is_white_space c = false -> exists r', JS.trimEnd (String c r) = String c r'.
Proof.
  intros Hc. cbn [JS.trimEnd]. destruct (JS.trimEnd r) as [|d r'].
  - rewrite Hc. now eexists.
  - now eexists.
Qed.

(** The trimmed text starts with no white space, ends with none, and trimming
    it again changes nothing. *)
Lemma trim_idempotent (s : string) : JS.trim (JS.trim s) = JS.trim s.
Proof.
  unfold JS.trim. pose proof (trimStart_led s) as H.
  destruct (JS.trimStart s) as [|c r]; [reflexivity|].
  destruct (trimEnd_keeps_head c r H) as [r' E]. rewrite E.
  cbn [JS.trimStart]. rewrite H, <- E. apply trimEnd_idempotent.
Qed.

(** ** Requests *)

Lemma In_remove_nth {A} (i : nat) (l : list A) (x : A) :
  In x (remove_nth i l) -> In x l.
Proof.
  revert i. induction l as [|h t IH]; intros [|i]; simpl; auto.
  intros [H | H]; [now left | right; eauto].
Qed.

Lemma Forall_remove_nth {A} (P : A -> Prop) (i : nat) (l : list A) :
  Forall P l -> Forall P (remove_nth i l).
Proof.
  rewrite !Forall_forall. intros H x Hx. apply H. now apply (In_remove_nth i).
Qed.

(** The invariant depends on six fields only. *)
Lemma requests_in_order_ext (origin : string) (s s' : App) :
  requests_in_order origin s ->
  apiBase s' = apiBase s -> currentKeywords s' = currentKeywords s ->
  searching s' = searching s -> downloading s' = downloading s ->
  fetched s' = fetched s ->
  (loadingDiv_hidden s' = false -> loadingDiv_hidden s = false) ->
  requests_in_order origin s'.
Proof.
  intros [H1 H2 H3 H4 H5 H6 H7] E1 E2 E3 E4 E5 E6.
  constructor; rewrite ?E1, ?E2, ?E3, ?E4, ?E5; auto.
Qed.

Lemma searchPapers_keeps_requests (origin : string) (s : App) :
  requests_in_order origin s -> requests_in_order origin (searchPapers s).
Proof.
  intros I. pose proof I as [H1 H2 H3 H4 H5 H6 H7]. unfold searchPapers.
  destruct (JS.truthy (JS.trim (keywordsInput s))) eqn:T; cbn [negb].
  - set (r := {| url := apiBase s ++ "/search"; keywords := JS.trim (keywordsInput s) |}).
    assert (R : search_request origin r).
    { repeat split; cbn; [now rewrite H1 | exact T | apply trim_idempotent]. }
    constructor; cbn.
    + exact H1.
    + apply trim_idempotent.
    + apply Forall_app. split; [exact H3 | now constructor].
    + exact H4.
    + apply Forall_app. split; [exact H5 | constructor; [now left | constructor]].
    + intros x Hx. apply in_app_iff.
      apply in_app_iff in Hx as [Hx | Hx].
      * apply in_app_iff in Hx as [Hx | Hx]; [|now right].
        left. apply H6, in_app_iff. now left.
      * left. apply H6, in_app_iff. now right.
    + intros _ E. now apply app_eq_nil in E as [_ E].
  - constructor; cbn; auto. apply trim_idempotent.
Qed.

Lemma searchPapers_resume_requests (o : Settled SearchResult) (s : App) :
  let s' := searchPapers_resume o s in
  apiBase s' = apiBase s /\ currentKeywords s' = currentKeywords s
  /\ searching s' = searching s /\ downloading s' = downloading s
  /\ fetched s' = fetched s.
Proof.
  cbv zeta.
  unfold searchPapers_resume, try_catch_finally, bind, await_fetch, json, throw, lift.
  destruct o as [m | [[m | d] | st [m | err]]]; try (repeat split; reflexivity).
  rewrite displayResults_eq, displayTopPapers_eq.
  destruct (top_papers d); repeat split; reflexivity.
Qed.

Lemma downloadPaper_resume_requests (o : Settled DownloadData) (s : App) :
  let s' := downloadPaper_resume o s in
  apiBase s' = apiBase s /\ currentKeywords s' = currentKeywords s
  /\ searching s' = searching s /\ downloading s' = downloading s
  /\ fetched s' = fetched s /\ loadingDiv_hidden s' = loadingDiv_hidden s.
Proof.
  destruct o as [m | [[m | d] | st [m | err]]]; try (repeat split; reflexivity).
  cbv zeta. open_save; repeat split.
Qed.

Lemma run_inline_keeps_requests (origin text : string) (s s' : App) :
  run_inline text s = Some s' ->
  requests_in_order origin s -> requests_in_order origin s'.
Proof.
  unfold run_inline. destruct (compile text) as [[u | n k] | |] eqn:C; intros E I;
    inversion E; subst; try exact I.
  - apply (requests_in_order_ext origin s); auto.
  - pose proof I as [H1 H2 H3 H4 H5 H6 H7].
    assert (R : download_request origin
                  {| url := apiBase s ++ "/download/" ++ JS.of_int n; keywords := k |}).
    { exists n. split; [exact (compile_call_safe text n k C)|]. cbn. now rewrite H1. }
    constructor; cbn; auto.
    + apply Forall_app. split; [exact H4 | now constructor].
    + apply Forall_app. split; [exact H5 | constructor; [now right | constructor]].
    + intros x Hx. apply in_app_iff.
      apply in_app_iff in Hx as [Hx | Hx].
      * left. apply H6, in_app_iff. now left.
      * apply in_app_iff in Hx as [Hx | Hx]; [|now right].
        left. apply H6, in_app_iff. now right.
Qed.

Lemma handle_keeps_requests (origin : string) (e : Event) (s s' : App) :
  handle e s = Some s' ->
  requests_in_order origin s -> requests_in_order origin s'.
Proof.
  destruct e as [v | | key | i o | i | i | i | i o]; cbn [handle]; intros E I.
  - inversion E; subst. apply (requests_in_order_ext origin s); auto.
  - inversion E; subst. now apply searchPapers_keeps_requests.
  - inversion E; subst. destruct (String.eqb key "Enter");
      [now apply searchPapers_keeps_requests | exact I].
  - destruct (nth_error (searching s) i); [|discriminate].
    inversion E; subst. pose proof I as [H1 H2 H3 H4 H5 H6 H7].
    match goal with
    | |- requests_in_order _ (searchPapers_resume o ?x) =>
        destruct (searchPapers_resume_requests o x) as (E1 & E2 & E3 & E4 & E5);
        pose proof (searchPapers_resume_loading o x) as L
    end.
    cbv zeta in *. constructor; rewrite ?E1, ?E2, ?E3, ?E4, ?E5; cbn; auto.
    + now apply Forall_remove_nth.
    + intros x Hx. apply H6, in_app_iff.
      apply in_app_iff in Hx as [Hx | Hx]; [left | now right].
      now apply (In_remove_nth i).
    + rewrite L. discriminate.
  - destruct (nth_error (cards_of (topPapersDiv s)) i); [|discriminate].
    inversion E; subst. apply (requests_in_order_ext origin s); auto.
  - destruct (nth_error (papersTable s) i); [|discriminate].
    apply click_row_inv in E as [_ E].
    now apply (run_inline_keeps_requests origin _ _ _ E).
  - destruct (nth_error (papersTable s) i); [|discriminate].
    apply click_row_inv in E as [_ E].
    now apply (run_inline_keeps_requests origin _ _ _ E).
  - destruct (nth_error (downloading s) i); [|discriminate].
    destruct (link_read o s); [|discriminate].
    inversion E; subst. pose proof I as [H1 H2 H3 H4 H5 H6 H7].
    match goal with
    | |- requests_in_order _ (downloadPaper_resume o ?x) =>
        destruct (downloadPaper_resume_requests o x) as (E1 & E2 & E3 & E4 & E5 & L)
    end.
    cbv zeta in *. constructor; rewrite ?E1, ?E2, ?E3, ?E4, ?E5, ?L; cbn; auto.
    + now apply Forall_remove_nth.
    + intros x Hx. apply H6, in_app_iff.
      apply in_app_iff in Hx as [Hx | Hx]; [now left | right].
      now apply (In_remove_nth i).
Qed.

(** X6.  In every state reached from page load through events that the model
    covers: the requests sent so far went to the page's own origin only, each a
    search with trimmed, non-empty keywords or a download of one paper; every
    pending request is among those sent; the stored context is trimmed; and the
    loading indicator shows only while a search is pending.  The events not
    covered, and only they, are left out: a click on a row whose markup is not
    whole, whose id is no safe integer or whose handler is neither of the two
    statements of the templates nor a text that does not compile, and a
    successful download whose link may lead to another origin.  Script that a
    text of a response starts by itself when it is inserted as markup is not
    followed either. *)
Theorem reachable_requests_in_order (origin : string) (saved0 : option string)
    (s : App) :
  (reachable origin saved0 s -> requests_in_order origin s)
  /\ (forall e, handle e s = None -> impossible e s \/ uncovered e s).
Proof.
  split; [|intros e H; now apply handle_None_iff].
  assert (P : requests_in_order origin (page origin)).
  { constructor; cbn; auto; try constructor; try discriminate.
    intros x Hx. exact Hx. }
  induction 1 as [| s s' e _ IH He].
  - unfold new_ArxivDownloader, init. destruct saved0 as [k|]; [|exact P].
    destruct (JS.truthy k); [|exact P].
    apply searchPapers_keeps_requests.
    apply (requests_in_order_ext origin (page origin)); auto.
  - exact (handle_keeps_requests origin e s s' He IH).
Qed.

Lemma reachable_requests_in_order_witness :
  let s := searchPapers (set_keywordsInput "  graphs " (page Sample.origin)) in
  fetched s = [{| url := "http://localhost:8000/search"; keywords := "graphs" |}]
  /\ requests_in_order Sample.origin s.
Proof.
  intros s. split; [reflexivity|].
  apply (reachable_requests_in_order Sample.origin (Some "  graphs ") s).
  apply reachable_new.
Defined.

(** ** The keywords parameter of a URL *)

Ltac each_code_unit c := destruct c as [[] [] [] [] [] [] [] []]; reflexivity.

Lemma plus_to_space_unit (c : ascii) (x : string) :
  URLSearchParams.plus_to_space (JS.encode_unit c ++ x)
  = JS.encode_unit c ++ URLSearchParams.plus_to_space x.
Proof. each_code_unit c. Qed.

Lemma utf8_encode_unit (c : ascii) (x : string) :
  URLSearchParams.utf8_encode (JS.encode_unit c ++ x)
  = JS.encode_unit c ++ URLSearchParams.utf8_encode x.
Proof. each_code_unit c. Qed.

Lemma percent_decode_unit (c : ascii) (x : string) :
  URLSearchParams.percent_decode (JS.encode_unit c ++ x)
  = URLSearchParams.utf8_unit c ++ URLSearchParams.percent_decode x.
Proof. each_code_unit c. Qed.

Lemma utf8_decode_unit (c : ascii) (x : string) :
  URLSearchParams.utf8_decode (URLSearchParams.utf8_unit c ++ x)
  = option_map (String c) (URLSearchParams.utf8_decode x).
Proof. each_code_unit c. Qed.

Lemma utf8_round_trip (k : string) :
  URLSearchParams.utf8_decode (URLSearchParams.utf8_encode k) = Some k.
Proof.
  induction k as [|c k IH]; [reflexivity|].
  cbn [URLSearchParams.utf8_encode]. now rewrite utf8_decode_unit, IH.
Qed.

Lemma plus_to_space_encoded (k : string) :
  URLSearchParams.plus_to_space (JS.encodeURIComponent k) = JS.encodeURIComponent k.
Proof.
  induction k as [|c k IH]; [reflexivity|].
  cbn [JS.encodeURIComponent]. now rewrite plus_to_space_unit, IH.
Qed.

Lemma utf8_encode_encoded (k : string) :
  URLSearchParams.utf8_encode (JS.encodeURIComponent k) = JS.encodeURIComponent k.
Proof.
  induction k as [|c k IH]; [reflexivity|].
  cbn [JS.encodeURIComponent]. now rewrite utf8_encode_unit, IH.
Qed.

Lemma percent_decode_encoded (k : string) :
  URLSearchParams.percent_decode (JS.encodeURIComponent k) = URLSearchParams.utf8_encode k.
Proof.
  induction k as [|c k IH]; [reflexivity|].
  cbn [JS.encodeURIComponent URLSearchParams.utf8_encode].
  now rewrite percent_decode_unit, IH.
Qed.

(** Decoding a form value undoes [encodeURIComponent]. *)
Lemma form_decode_encodeURIComponent (k : string) :
  URLSearchParams.form_decode (JS.encodeURIComponent k) = Some k.
Proof.
  unfold URLSearchParams.form_decode.
  rewrite plus_to_space_encoded, utf8_encode_encoded, percent_decode_encoded.
  apply utf8_round_trip.
Qed.

Lemma split_whole (sep : ascii) (s : string) :
  occurs sep s = false -> URLSearchParams.split sep s = [s].
Proof.
  unfold occurs. induction s as [|c s IH]; cbn -[Ascii.eqb]; [reflexivity|].
  intros H. apply orb_false_iff in H as [Hc Hs].
  rewrite (Ascii.eqb_sym c sep), Hc, (IH Hs). reflexivity.
Qed.

Lemma parse_keywords_parameter (k : string) :
  URLSearchParams.parse ("?keywords=" ++ JS.encodeURIComponent k) = Some [("keywords", k)].
Proof.
  unfold URLSearchParams.parse.
  change (URLSearchParams.strip_question ("?keywords=" ++ JS.encodeURIComponent k))
    with ("keywords=" ++ JS.encodeURIComponent k).
  rewrite split_whole.
  - cbn [URLSearchParams.decode_pieces append].
    change (URLSearchParams.name_value
              (String "k" (String "e" (String "y" (String "w" (String "o"
                (String "r" (String "d" (String "s" (String "="
                  (JS.encodeURIComponent k)))))))))))
      with ("keywords", JS.encodeURIComponent k).
    cbv iota beta. rewrite form_decode_encodeURIComponent. reflexivity.
  - rewrite occurs_app.
    now rewrite (encodeURIComponent_avoids "&" k eq_refl (or_introl eq_refl)).
Qed.

(** X7.  Reading a form value undoes [encodeURIComponent]; and the query string
    [?keywords=] followed by the encoded keywords, as the links of the cards
    and rows carry it, is read back by the script as exactly one parameter,
    [keywords], with the keywords as they were, whatever characters they
    hold. *)
Theorem keywords_parameter_round_trip (k : string) :
  URLSearchParams.form_decode (JS.encodeURIComponent k) = Some k
  /\ URLSearchParams.parse ("?keywords=" ++ JS.encodeURIComponent k)
     = Some [("keywords", k)]
  /\ option_map (URLSearchParams.get "keywords")
       (URLSearchParams.parse ("?keywords=" ++ JS.encodeURIComponent k))
     = Some (Some k).
Proof.
  split; [apply form_decode_encodeURIComponent|].
  rewrite parse_keywords_parameter. split; reflexivity.
Qed.

(** X8.  A page opened on [?keywords=...], the field being a single-line text
    input.  With keywords that are not empty the field is filled with them,
    line breaks dropped, and the trimmed field is stored as the context: when
    that is not empty one search for it is under way and the loading indicator
    shows as the constructor returns, and when it is empty the validation
    error shows and nothing is sent.  With empty keywords the page stays
    idle. *)
Theorem deep_link_load (origin k : string) :
  let v := strip_newlines k in
  exists s,
    load origin ("?keywords=" ++ JS.encodeURIComponent k) = Some s
    /\ (k <> "" -> keywordsInput s = v /\ currentKeywords s = JS.trim v)
    /\ (k <> "" -> JS.trim v <> "" ->
        fetched s = [{| url := origin ++ "/search"; keywords := JS.trim v |}]
        /\ searching s = fetched s
        /\ loading_visible s = true /\ error_visible s = false)
    /\ (k <> "" -> JS.trim v = "" ->
        fetched s = []
        /\ error_visible s = true
        /\ errorDiv_textContent s = "Please enter keywords")
    /\ (k = "" -> s = page origin).
Proof.
  intros v. unfold load. rewrite parse_keywords_parameter.
  cbn [URLSearchParams.get String.eqb Ascii.eqb Bool.eqb].
  eexists. split; [reflexivity|].
  unfold new_ArxivDownloader, init.
  destruct k as [|c k].
  { split; [intros H; now contradiction H|]. split; [intros H; now contradiction H|].
    split; [intros H; now contradiction H | reflexivity]. }
  cbn [JS.truthy]. unfold searchPapers, set_value. fold v.
  cbn [keywordsInput set_keywordsInput].
  destruct (JS.truthy (JS.trim v)) eqn:E.
  - split; [intros _; split; reflexivity|]. split; [intros _ _; repeat split|].
    split; [|discriminate].
    intros _ T. rewrite T in E. discriminate E.
  - apply truthy_false_iff in E.
    split; [intros _; split; reflexivity|]. split; [intros _ T; contradiction|].
    split; [intros _ _; repeat split | discriminate].
Qed.

Lemma deep_link_load_witness :
  exists s,
    load Sample.origin "?keywords=deep%0Alearning%20" = Some s
    /\ keywordsInput s = "deeplearning "
    /\ fetched s = [{| url := "http://localhost:8000/search"; keywords := "deeplearning" |}].
Proof.
  destruct (deep_link_load Sample.origin
              (String "d" (String "e" (String "e" (String "p" (String "010" "learning "))))))
    as (s & L & H1 & H2 & _).
  exists s. split; [exact L|].
  split; [apply H1; discriminate | apply H2; [discriminate | vm_compute; discriminate]].
Defined.

(** ** The two variants of the script *)












(** X10.  The variant without a strip sends nothing before the first submit.
    Whatever the URL of the page, as long as no event is a click on the search
    button or an Enter key press, no request has been sent, and the table is
    empty. *)
Theorem Basic_silent_before_submit (origin : string) (saved0 : option string)
    (es : list Event) (s : App) :
  forallb (fun e => negb (submits e)) es = true ->
  Basic.run es (Basic.new_ArxivDownloader origin saved0) = Some s ->
  fetched s = [] /\ papersTable s = [] /\ loading_visible s = false.
Proof.
  assert (G : forall es s0 s,
             forallb (fun e => negb (submits e)) es = true ->
             fetched s0 = [] -> papersTable s0 = [] -> loadingDiv_hidden s0 = true ->
             searching s0 = [] -> downloading s0 = [] ->
             Basic.run es s0 = Some s ->
             fetched s = [] /\ papersTable s = [] /\ loading_visible s = false).
  { clear. induction es as [|e es IH]; intros s0 s H F T L S D R.
    - inversion R; subst. unfold loading_visible. now rewrite L.
    - cbn [forallb] in H. apply andb_true_iff in H as [He Hes].
      apply negb_true_iff in He. cbn [Basic.run] in R.
      destruct e as [v | | key | i o | i | i | i | i o];
        cbn [Basic.handle submits] in R, He; try discriminate.
      + apply (IH _ _ Hes) in R; auto.
      + rewrite He in R. apply (IH _ _ Hes) in R; auto.
      + rewrite S in R. destruct i; discriminate.
      + rewrite T in R. destruct i; discriminate.
      + rewrite T in R. destruct i; discriminate.
      + rewrite D in R. destruct i; discriminate. }
  intros H R. apply (G es (Basic.new_ArxivDownloader origin saved0) s H); auto;
    unfold Basic.new_ArxivDownloader, Basic.init;
    destruct saved0 as [k|]; try reflexivity; destruct (JS.truthy k); reflexivity.
Qed.

Lemma Basic_silent_before_submit_witness :
  let es := [Edit "quantum"; Keypress "a"; Edit "quantum a"] in
  exists s,
    Basic.run es (Basic.new_ArxivDownloader Sample.origin (Some "graphs")) = Some s
    /\ fetched s = [].
Proof.
  intros es. eexists. split; [reflexivity|].
  apply (Basic_silent_before_submit Sample.origin (Some "graphs") es); reflexivity.
Defined.

(** ** Clicks on a row *)

(** X3.  A click on the title of a row leads to the paper under the context the
    row was rendered with, whatever the field and the stored context hold at
    the time of the click, provided that the texts of the row leave its markup
    whole (no double quote in the title, no opening angle bracket in title,
    date and authors), that the id is a safe integer, and that the context has
    no apostrophe. *)
Theorem title_click_navigates (s s0 : App) (paper : Paper.t) (i : nat) :
  nth_error (papersTable s) i = Some (createPaperRow paper s0) ->
  row_intact (createPaperRow paper s0) = true ->
  safe_integer (Paper.id paper) = true ->
  occurs "'" (currentKeywords s0) = false ->
  handle (Click_title i) s
  = Some (set_location_href
            ("/paper/" ++ JS.of_int (Paper.id paper) ++ "?keywords="
             ++ JS.encodeURIComponent (currentKeywords s0)) s).
Proof.
  intros Hi Hr _ Hk. cbn [handle]. rewrite Hi. unfold click_row. rewrite Hr.
  unfold run_inline. rewrite (row_title_navigates paper s0 Hk). reflexivity.
Qed.

Lemma title_click_navigates_witness :
  let s0 := set_currentKeywords "graph neural" (page Sample.origin) in
  let s := set_keywordsInput "edited" (displayResults Sample.quantum s0) in
  option_map location_href (handle (Click_title 1) s)
  = Some "/paper/8?keywords=graph%20neural".
Proof.
  intros s0 s.
  rewrite (title_click_navigates s s0 Sample.paper8 1); reflexivity.
Defined.

(** X4.  A click on the download button of a row sends one request, to
    [/download/] followed by the id of the paper, with the context the row was
    rendered with as its keywords, whatever the field and the stored context
    hold at the time of the click, provided that the texts of the row leave
    its markup whole, that the id is a safe integer, and that the context is
    plain text (no quote of either kind, backslash, ampersand, line
    terminator or U+0000).  The click changes nothing that is shown. *)
Theorem download_click_sends (s s0 : App) (paper : Paper.t) (i : nat) :
  nth_error (papersTable s) i = Some (createPaperRow paper s0) ->
  row_intact (createPaperRow paper s0) = true ->
  safe_integer (Paper.id paper) = true ->
  plain_text (currentKeywords s0) = true ->
  let request := {| url := apiBase s ++ "/download/" ++ JS.of_int (Paper.id paper);
                    keywords := currentKeywords s0 |} in
  exists s',
    handle (Click_download i) s = Some s'
    /\ fetched s' = (fetched s ++ [request])%list
    /\ downloading s' = (downloading s ++ [request])%list
    /\ searching s' = searching s
    /\ location_href s' = location_href s
    /\ loading_visible s' = loading_visible s
    /\ error_visible s' = error_visible s
    /\ results_visible s' = results_visible s
    /\ papersTable s' = papersTable s
    /\ currentKeywords s' = currentKeywords s.
Proof.
  intros Hi Hr Hz Hk request. eexists. split.
  - cbn [handle]. rewrite Hi. unfold click_row. rewrite Hr. unfold run_inline.
    rewrite (row_download_carries_context paper s0 Hz Hk). reflexivity.
  - repeat split.
Qed.

Lemma download_click_sends_witness :
  let s0 := set_currentKeywords "graph neural" (page Sample.origin) in
  let s := set_currentKeywords "" (set_keywordsInput "" (displayResults Sample.quantum s0)) in
  option_map fetched (handle (Click_download 0) s)
  = Some [{| url := "http://localhost:8000/download/7"; keywords := "graph neural" |}].
Proof.
  intros s0 s.
  destruct (download_click_sends s s0 Sample.paper7 0) as (s' & H & F & _);
    [reflexivity | reflexivity | reflexivity | reflexivity |].
  rewrite H. cbn [option_map]. rewrite F. reflexivity.
Defined.

(** ** The highlight strip and the links *)



Lemma forallb_string_app (P : ascii -> bool) (a b : string) :
  forallb P (list_ascii_of_string (a ++ b))
  = forallb P (list_ascii_of_string a) && forallb P (list_ascii_of_string b).
Proof. induction a as [|c a IH]; simpl; [reflexivity|]. now rewrite IH, andb_assoc. Qed.

Lemma encode_unit_link_chars (c : ascii) :
  forallb is_link_char (list_ascii_of_string (JS.encode_unit c)) = true.
Proof. each_code_unit c. Qed.

Lemma encodeURIComponent_link_chars (k : string) :
  forallb is_link_char (list_ascii_of_string (JS.encodeURIComponent k)) = true.
Proof.
  induction k as [|c k IH]; [reflexivity|].
  cbn [JS.encodeURIComponent]. now rewrite forallb_string_app, encode_unit_link_chars, IH.
Qed.

Lemma sign_and_digits_link_chars (c : ascii) :
  occurs c "-0123456789" = true -> is_link_char c = true.
Proof.
  destruct c as [[] [] [] [] [] [] [] []]; vm_compute; intros H;
    (reflexivity || discriminate H).
Qed.

Lemma of_int_link_chars (z : Z) :
  forallb is_link_char (list_ascii_of_string (JS.of_int z)) = true.
Proof.
  pose proof (of_int_chars z) as H. rewrite forallb_forall in *.
  intros c Hc. apply sign_and_digits_link_chars, (H c Hc).
Qed.

(** X12.  For an id of magnitude below [10^21], which is printed as a sign and
    digits, the link of a card is made of the characters that need no escape
    in a URL, the percent sign, and the slash, question mark and equals sign
    of its own path and query: whatever the keywords, the link has no
    ampersand, no hash sign, no space and no double quote, and so exactly the
    one parameter. *)
Theorem card_link_is_one_parameter (paper : Paper.t) (s : App) :
  Z.abs (Paper.id paper) < 10 ^ 21 ->
  let link := card_onclick (createTopPaperCard paper s) in
  forallb is_link_char (list_ascii_of_string link) = true
  /\ occurs "&" link = false /\ occurs "#" link = false
  /\ occurs " " link = false /\ occurs double_quote link = false
  /\ count_char "?" link = 1%nat /\ count_char "=" link = 1%nat.
Proof.
  intros _. cbv zeta. cbn [createTopPaperCard card_onclick].
  set (id := JS.of_int (Paper.id paper)).
  set (enc := JS.encodeURIComponent (currentKeywords s)).
  assert (L : forallb is_link_char
                (list_ascii_of_string ("/paper/" ++ id ++ "?keywords=" ++ enc)) = true).
  { rewrite !forallb_string_app. unfold id, enc.
    now rewrite of_int_link_chars, encodeURIComponent_link_chars. }
  assert (N : forall b, is_link_char b = false ->
                        occurs b ("/paper/" ++ id ++ "?keywords=" ++ enc) = false).
  { intros b Hb. unfold occurs. rewrite forallb_forall in L.
    destruct (existsb (Ascii.eqb b) _) eqn:E; [|reflexivity].
    apply existsb_exists in E as (c & Hc & Ec). apply Ascii.eqb_eq in Ec. subst c.
    rewrite (L b Hc) in Hb. discriminate. }
  assert (C : forall b, JS.is_uri_unreserved b = false ->
                        occurs b "%0123456789ABCDEF" = false ->
                        occurs b "-0123456789" = false ->
                        count_char b ("/paper/" ++ id ++ "?keywords=" ++ enc)
                        = count_char b "/paper/?keywords=").
  { intros b U X D.
    assert (Z0 : forall x, occurs b x = false -> count_char b x = 0%nat).
    { intros x. unfold occurs, count_char.
      induction (list_ascii_of_string x) as [|c l IH]; simpl; [reflexivity|].
      intros H. apply orb_false_iff in H as [H1 H2]. rewrite H1. auto. }
    assert (A : forall x y, count_char b (x ++ y) = (count_char b x + count_char b y)%nat).
    { intros x y. unfold count_char. induction x as [|c x IH]; simpl; [reflexivity|].
      destruct (Ascii.eqb b c); simpl; now rewrite IH. }
    rewrite !A, (Z0 id), (Z0 enc).
    - change "/paper/?keywords=" with ("/paper/" ++ "?keywords="). rewrite A. lia.
    - apply encodeURIComponent_avoids; [exact X | now left].
    - apply (occurs_among _ _ _ (of_int_chars _) D). }
  split; [exact L|].
  repeat split; try (apply N; reflexivity); rewrite C; reflexivity.
Qed.

(** X13.  The title on a card has the length of the title up to 80 characters
    and exactly 83 characters beyond, so it is never longer than 83; a title
    of 81 or 82 characters is shown longer than it is. *)
Theorem card_title_bounded (paper : Paper.t) (s : App) :
  let c := createTopPaperCard paper s in
  let n := String.length (Paper.title paper) in
  String.length (card_title c) = (if (n <=? 80)%nat then n else 83%nat)
  /\ (String.length (card_title c) <= 83)%nat
  /\ (n = 81%nat \/ n = 82%nat -> (n < String.length (card_title c))%nat).
Proof.
  cbv zeta. cbn [createTopPaperCard card_title]. unfold JS.length, JS.substring0.
  destruct (Z.ltb_spec 80 (Z.of_nat (String.length (Paper.title paper)))) as [H | H];
    cbv iota.
  - assert (E : String.length (String.substring 0 80 (Paper.title paper) ++ "...") = 83%nat).
    { rewrite append_length, substring_length; [reflexivity | lia]. }
    destruct (Nat.leb_spec (String.length (Paper.title paper)) 80); lia.
  - destruct (Nat.leb_spec (String.length (Paper.title paper)) 80); lia.
Qed.

(** ** Instances *)


Lemma rendered_links_are_kept_witness :
  let s := displayResults Sample.quantum (page Sample.origin) in
  papersTable (searchPapers (set_keywordsInput "graphs" s)) = papersTable s.
Proof.
  intros s.
  assert (E : papersTable (set_keywordsInput "graphs" s) = papersTable s) by reflexivity.
  rewrite <- E.
  apply (rendered_links_are_kept Click_searchBtn (set_keywordsInput "graphs" s));
    [reflexivity | discriminate].
Defined.

Lemma reachable_nodes_known_witness :
  body (new_ArxivDownloader Sample.origin (Some "quantum")) = [].
Proof.
  apply (reachable_nodes_known Sample.origin (Some "quantum")). apply reachable_new.
Defined.

Lemma card_title_bounded_witness :
  let paper :=
    Paper.mk 1
      "A title of eighty-one characters, one more than a card shows without an ellipsis."
      "2020-01-01" [] "" (JS.Finite 0 0) false in
  String.length (Paper.title paper) = 81%nat
  /\ (81 < String.length (card_title (createTopPaperCard paper (page Sample.origin))))%nat.
Proof.
  intros paper. split; [reflexivity|].
  apply (card_title_bounded paper (page Sample.origin)). left. reflexivity.
Defined.

Lemma card_link_is_one_parameter_witness :
  let link := card_onclick (createTopPaperCard Sample.paper7
                (set_currentKeywords "R&D #1" (page Sample.origin))) in
  link = "/paper/7?keywords=R%26D%20%231"
  /\ occurs "&" link = false /\ occurs "#" link = false.
Proof.
  intros link. split; [reflexivity|].
  destruct (card_link_is_one_parameter Sample.paper7
              (set_currentKeywords "R&D #1" (page Sample.origin)))
    as (_ & H1 & H2 & _); [reflexivity|].
  split; assumption.
Defined.
